(** * id_gen: bulk generation of student ID cards

    A shallow embedding of [src/id_gen.py], the command line tool that turns
    a CSV roster, two SVG templates and a directory of photos into one
    two-page PDF per student, and the properties of its processing loop.

    Python [str] values are lists of characters, [bytes] values are lists of
    bytes, the file system is a finite map from paths to file contents, and
    the body of the [for row in data] loop is a computation in a state and
    exception monad over the file system, the standard output and the log of
    calls made to the outside world. *)

From Stdlib.Strings Require Import String Ascii Byte.
From Stdlib Require Import NArith ZArith.
From stdpp Require Import base tactics option list gmap strings.

Open Scope list_scope.

(** ** Python strings and bytes *)

Abbreviation str := (list ascii).
Abbreviation bytes := (list byte).

(** String literals of the source are read as [str]. *)
Definition lit (s : string) : str := list_ascii_of_string s.
Coercion lit : string >-> list.

Module Py.

(** [s.startswith(p)] *)
Fixpoint startswith (s p : str) {struct p} : bool :=
  match p, s with
  | [], _ => true
  | a :: p', b :: s' => Ascii.eqb a b && startswith s' p'
  | _ :: _, [] => false
  end.

(** [s.endswith(p)] *)
Definition endswith (s p : str) : bool := startswith (reverse s) (reverse p).

(** The scan of [str.replace] for a non-empty [old]: left to right, every
    occurrence of [old] that does not overlap an earlier one is replaced;
    [skip] counts the characters of a matched occurrence still to pass. *)
Fixpoint replace_go (old new : str) (skip : nat) (s : str) : str :=
  match s with
  | [] => []
  | c :: s' =>
      match skip with
      | S k => replace_go old new k s'
      | O =>
          if startswith s old
          then new ++ replace_go old new (length old - 1) s'
          else c :: replace_go old new 0 s'
      end
  end.

(** [s.replace(old, new)]; with an empty [old] Python inserts [new] before
    every character and at the end. *)
Definition replace (s old new : str) : str :=
  match old with
  | [] => new ++ flat_map (fun c => c :: new) s
  | _ :: _ => replace_go old new 0 s
  end.

(** [sep.join(parts)] *)
Fixpoint join (sep : str) (parts : list str) : str :=
  match parts with
  | [] => []
  | [p] => p
  | p :: ps => p ++ sep ++ join sep ps
  end.

(** [os.path.join(a, *p)] of [posixpath]: an absolute component discards
    what precedes it, and a separator is inserted unless the path so far
    is empty or already ends with one. *)
Definition path_join2 (path b : str) : str :=
  if startswith b "/" then b
  else if bool_decide (path = []) || endswith path "/" then path ++ b
  else path ++ "/" ++ b.

Definition path_join (a : str) (p : list str) : str :=
  fold_left path_join2 p a.

(** [s[2:-1]] *)
Definition slice_2_m1 {A} (s : list A) : list A := removelast (drop 2 s).

(** [repr] of a [bytes] object, which is what [str(b)] returns. *)
Definition hexdigit (n : N) : ascii :=
  nth (N.to_nat n) (lit "0123456789abcdef") "0"%char.

Definition repr_byte (quote : ascii) (b : byte) : str :=
  let c := ascii_of_byte b in
  let n := Byte.to_N b in
  if Ascii.eqb c quote || Ascii.eqb c "\"%char then ["\"%char; c]
  else if (n =? 9)%N then "\t"
  else if (n =? 10)%N then "\n"
  else if (n =? 13)%N then "\r"
  else if ((n <? 32) || (127 <=? n))%N
       then "\x" ++ [hexdigit (n / 16); hexdigit (n mod 16)]
  else [c].

Definition single_quote : ascii := "'"%char.
Definition double_quote : ascii := Ascii.ascii_of_nat 34.

Definition has_byte (c : ascii) (bs : bytes) : bool :=
  existsb (fun b => Ascii.eqb (ascii_of_byte b) c) bs.

Definition repr_bytes (bs : bytes) : str :=
  let quote :=
    if has_byte single_quote bs && negb (has_byte double_quote bs)
    then double_quote else single_quote in
  "b" ++ [quote] ++ flat_map (repr_byte quote) bs ++ [quote].

(** [s.encode('utf-8')], for the code points a character of [str] holds
    (below 256): one byte below 128, two bytes from there on. *)
Definition byte_of_N (n : N) : byte :=
  match Byte.of_N n with Some b => b | None => x00 end.

Definition encode_utf8_char (c : ascii) : bytes :=
  let n := N_of_ascii c in
  if (n <? 128)%N then [byte_of_ascii c]
  else [byte_of_N (192 + n / 64); byte_of_N (128 + n mod 64)].

Definition encode_utf8 (s : str) : bytes := flat_map encode_utf8_char s.

(** [base64.b64encode(bs)]: the standard alphabet, three bytes to four
    characters, padded with [=]. *)
Definition b64_alphabet : bytes :=
  map byte_of_ascii
    (lit "ABCDEFGHIJKLMNOPQRSTUVWXYZabcdefghijklmnopqrstuvwxyz0123456789+/").

Definition b64_pad : byte := byte_of_ascii "="%char.

Definition b64_digit (n : N) : byte :=
  nth (N.to_nat (n mod 64)) b64_alphabet b64_pad.

Fixpoint b64encode (bs : bytes) : bytes :=
  match bs with
  | [] => []
  | [b0] =>
      let n := (Byte.to_N b0 * 65536)%N in
      [b64_digit (n / 262144); b64_digit (n / 4096); b64_pad; b64_pad]
  | [b0; b1] =>
      let n := (Byte.to_N b0 * 65536 + Byte.to_N b1 * 256)%N in
      [b64_digit (n / 262144); b64_digit (n / 4096); b64_digit (n / 64);
       b64_pad]
  | b0 :: b1 :: b2 :: rest =>
      let n := (Byte.to_N b0 * 65536 + Byte.to_N b1 * 256 + Byte.to_N b2)%N in
      [b64_digit (n / 262144); b64_digit (n / 4096); b64_digit (n / 64);
       b64_digit n] ++ b64encode rest
  end.

End Py.

(** ** The exceptions of a run *)

Inductive exn :=
  | IndexError
  | FileNotFoundError (path : str)
  | IllegalCharacterError (code : str)
  | CairoError
  | PdfReadError (path : str)
  | OSError (path : str).

(** ** The libraries the script calls and the operating system

    [barcode], [cairosvg] and [PyPDF2] are not part of the repository, and
    neither are the directories of the machine: they are taken as an
    interface.  A call that raises returns [None].

    A PDF file cairo writes carries the date of its creation, so what ends
    up in the file depends on the moment of the call; the pages PyPDF2 reads
    from it do not.  Whether a file can be created at a path depends on the
    directories there are, which the script does not change inside the loop,
    and on the files there are. *)

Class Libraries := {
  (** a page of a PDF document *)
  page : Type;
  (** [barcode.get_barcode_class('code128')(code).render(writer_options=
      {'module_width': 1, 'write_text': False})]: the SVG of the barcode;
      raises when [code] has a character Code 128 cannot encode, and on
      the empty code *)
  code128_render : str -> option bytes;
  (** the exception it raises then: [IllegalCharacterError] for a character
      outside Code 128, [IndexError] for the empty code *)
  code128_error : str -> exn;
  (** [cairosvg.svg2png(bytestring=svg, scale=scale)] *)
  svg2png : bytes -> Z -> option bytes;
  (** [cairosvg.svg2pdf(bytestring=svg, parent_width=w, parent_height=h)]:
      the document it draws, before the file is stamped with its date *)
  svg2pdf : bytes -> Z -> Z -> option bytes;
  (** when [svg2pdf] raises: [None] when it does so before it creates the
      file at [write_to] (markup it cannot parse), and otherwise what it
      leaves in the file it has created by then *)
  svg2pdf_partial : bytes -> Z -> Z -> option bytes;
  (** the content of the file for a document written at a moment *)
  pdf_stamp : nat -> bytes -> bytes;
  (** the exception cairo raises when it cannot create the file at
      [write_to], given the files there are *)
  svg2pdf_create : gmap str bytes -> str -> option exn;
  (** the exception [open(path, 'wb')] raises when it cannot create the
      file, given the files there are: [FileNotFoundError] when the
      directory of [path] does not exist *)
  open_wb_error : gmap str bytes -> str -> option exn;
  (** the pages [PdfFileMerger.append] reads from the content of a file *)
  pdf_pages : bytes -> option (list page);
  (** the file content [PdfFileMerger.write] produces for a list of pages *)
  pdf_write : list page -> bytes;
  (** the date of a file is no part of its pages *)
  pdf_pages_stamp moment pdf : pdf_pages (pdf_stamp moment pdf) = pdf_pages pdf;
}.

(** ** The state of a run and its monad *)

(** Calls to the outside world, in the order they are made. *)
Inductive call :=
  | OpenRead (path : str)
  | OpenWrite (path : str)
  | Code128 (code : str)
  | Svg2Png
  | Svg2Pdf (write_to : str).

Record world := World {
  fs : gmap str bytes;
  stdout : list str;
  calls : list call;
}.

Inductive result (A : Type) :=
  | Ok (a : A)
  | Raise (e : exn).
Arguments Ok {A} a.
Arguments Raise {A} e.

Definition M (A : Type) : Type := world -> result A * world.

Definition ret {A} (a : A) : M A := fun w => (Ok a, w).

Definition raise {A} (e : exn) : M A := fun w => (Raise e, w).

Definition bind {A B} (m : M A) (k : A -> M B) : M B :=
  fun w =>
    match m w with
    | (Ok a, w') => k a w'
    | (Raise e, w') => (Raise e, w')
    end.

Notation "x <- m ;; k" := (bind m (fun x => k))
  (at level 20, m at level 99, k at level 200, only parsing).
Notation "m ;;; k" := (bind m (fun _ => k))
  (at level 100, k at level 200, right associativity, only parsing).

Definition when (b : bool) (m : M unit) : M unit := if b then m else ret tt.

Definition print (line : str) : M unit :=
  fun w => (Ok tt, World (fs w) (stdout w ++ [line]) (calls w)).

Definition log (c : call) : M unit :=
  fun w => (Ok tt, World (fs w) (stdout w) (calls w ++ [c])).

Definition write_file (path : str) (content : bytes) : M unit :=
  fun w => (Ok tt, World (<[path := content]> (fs w)) (stdout w) (calls w)).

(** [row[i]] *)
Definition index (row : list str) (i : nat) : M str :=
  match row !! i with
  | Some field => ret field
  | None => raise IndexError
  end.

(** [with open(path, 'rb') as f: ... f.read()] *)
Definition open_rb (path : str) : M bytes :=
  log (OpenRead path) ;;;
  fun w =>
    match fs w !! path with
    | Some content => (Ok content, w)
    | None => (Raise (FileNotFoundError path), w)
    end.

(** The moment of a call: its position in the log of calls. *)
Definition now : M nat := fun w => (Ok (length (calls w)), w).

(** A file is created, or truncated, and written, unless [error] says that
    it cannot be created. *)
Definition create (error : gmap str bytes -> str -> option exn)
    (path : str) (content : bytes) : M unit :=
  fun w =>
    match error (fs w) path with
    | Some e => (Raise e, w)
    | None => write_file path content w
    end.

(** ** The script *)

Record config := Config {
  images_path : str;
  output_path : str;
  debug : bool;
  template_front : str;
  template_back : str;
}.

Definition header : list str :=
  ["First" : str; "Last" : str; "Year" : str; "ID Number" : str;
   "Photo Number" : str].

Definition row_eqb (r1 r2 : list str) : bool := bool_decide (r1 = r2).

(** [str(base64.b64encode(content))[2:-1]] *)
Definition b64_str (content : bytes) : str :=
  Py.slice_2_m1 (Py.repr_bytes (Py.b64encode content)).

(** The front of the card: the four chained [replace] calls. *)
Definition id_front (template : str) (row0 row1 row2 row3 image_str : str)
  : str :=
  Py.replace
    (Py.replace
       (Py.replace
          (Py.replace template "<!-- NAME -->" (row0 ++ " " ++ row1))
          "<!-- YEAR -->" row2)
       "<!-- ID -->" row3)
    "<!-- PHOTO -->" image_str.

(** The back of the card. *)
Definition id_back (template : str) (id_barcode : str) : str :=
  Py.replace template "<!-- BARCODE -->" id_barcode.

Section Script.
Context `{Libraries}.
Variable cfg : config.

(** [id_barcode = str(base64.b64encode(cairosvg.svg2png(bytestring=
    barcode.get_barcode_class('code128')(code).render(...), scale=10)))[2:-1]] *)
Definition id_barcode (code : str) : M str :=
  log (Code128 code) ;;;
  match code128_render code with
  | None => raise (code128_error code)
  | Some svg =>
      log Svg2Png ;;;
      match svg2png svg 10 with
      | None => raise CairoError
      | Some png => ret (b64_str png)
      end
  end.

(** [cairosvg.svg2pdf(bytestring=markup.encode('utf-8'), write_to=write_to,
    parent_width=323, parent_height=204)]: the markup is parsed, the file
    at [write_to] is created, the document is drawn and the file written
    with the date of the call. *)
Definition render_pdf (markup : str) (write_to : str) : M unit :=
  log (Svg2Pdf write_to) ;;;
  moment <- now ;;
  match svg2pdf (Py.encode_utf8 markup) 323 204 with
  | Some pdf => create svg2pdf_create write_to (pdf_stamp moment pdf)
  | None =>
      match svg2pdf_partial (Py.encode_utf8 markup) 323 204 with
      | None => raise CairoError
      | Some rest =>
          create svg2pdf_create write_to rest ;;; raise CairoError
      end
  end.

(** [with open(path, 'wb') as output: merger.write(output)] *)
Definition open_wb (path : str) (content : bytes) : M unit :=
  log (OpenWrite path) ;;; create open_wb_error path content.

(** [merger.append(path)]: the pages of the file are added after the pages
    the merger already holds. *)
Definition merger_append (merger : list page) (path : str)
  : M (list page) :=
  content <- open_rb path ;;
  match pdf_pages content with
  | None => raise (PdfReadError path)
  | Some pages => ret (merger ++ pages)
  end.

(** Lines 153 to 255: a row that is neither the header nor skipped. *)
Definition make_id (row : list str) : M unit :=
  row2 <- index row 2 ;;
  row4 <- index row 4 ;;
  photo <- open_rb (Py.path_join (images_path cfg) [row2; row4 ++ ".jpg"]) ;;
  let image_str := b64_str photo in
  row3 <- index row 3 ;;
  id_barcode <- id_barcode row3 ;;
  when (debug cfg)
    (print ("Barcode of id " ++ row3 ++ ":") ;;; print id_barcode) ;;;
  row0 <- index row 0 ;;
  row1 <- index row 1 ;;
  let id_front := id_front (template_front cfg) row0 row1 row2 row3 image_str in
  let id_back := id_back (template_back cfg) id_barcode in
  when (debug cfg)
    (print "ID Front:" ;;; print id_front ;;;
     print "ID Back:" ;;; print id_back) ;;;
  let front := Py.path_join (output_path cfg) ["tmp" : str; row3 ++ "-front.pdf"] in
  let back := Py.path_join (output_path cfg) ["tmp" : str; row3 ++ "-back.pdf"] in
  render_pdf id_front front ;;;
  render_pdf id_back back ;;;
  let merger : list page := [] in
  merger <- merger_append merger front ;;
  merger <- merger_append merger back ;;
  open_wb (Py.path_join (output_path cfg) [row3 ++ ".pdf"]) (pdf_write merger).

(** Lines 145 to 151: the row of a student without a photo. *)
Definition skip_message (row0 row1 : str) : str :=
  "Student " ++ row0 ++ " " ++ row1 ++ " does not have a photo. Skipping...".

(** The body of [for row in data]. *)
Definition process_row (row : list str) : M unit :=
  when (debug cfg) (print (Py.join ", " row)) ;;;
  if row_eqb row header then ret tt
  else
    row4 <- index row 4 ;;
    if bool_decide (row4 = [])
    then
      row0 <- index row 0 ;;
      row1 <- index row 1 ;;
      print (skip_message row0 row1)
    else make_id row.

(** [for row in data: ...] *)
Fixpoint process_rows (data : list (list str)) : M unit :=
  match data with
  | [] => ret tt
  | row :: rest => process_row row ;;; process_rows rest
  end.

(** Lines 128 to 258. *)
Definition main (data : list (list str)) : M unit :=
  process_rows data ;;; print (ascii_of_nat 10 :: "Done.").

(** *** Names for what the statements below talk about: paths and documents *)

(** The world after line 140, the echo of the row in debug mode. *)
Definition echo (row : list str) (w : world) : world :=
  World (fs w)
        (stdout w ++ if debug cfg then [Py.join ", " row] else [])
        (calls w).

(** The paths of lines 155, 229, 235 and 253. *)
Definition photo_path (row2 row4 : str) : str :=
  Py.path_join (images_path cfg) [row2; row4 ++ ".jpg"].
Definition front_path (row3 : str) : str :=
  Py.path_join (output_path cfg) ["tmp" : str; row3 ++ "-front.pdf"].
Definition back_path (row3 : str) : str :=
  Py.path_join (output_path cfg) ["tmp" : str; row3 ++ "-back.pdf"].
Definition out_path (row3 : str) : str :=
  Py.path_join (output_path cfg) [row3 ++ ".pdf"].

(** The front document of a record as cairosvg draws it (lines 203 to
    232), before the file gets its date. *)
Definition front_pdf (row0 row1 row2 row3 : str) (photo : bytes)
  : option bytes :=
  svg2pdf
    (Py.encode_utf8
       (id_front (template_front cfg) row0 row1 row2 row3 (b64_str photo)))
    323 204.

(** The back document of a record as cairosvg draws it (lines 179 to
    238), before the file gets its date. *)
Definition back_pdf (row3 : str) : option bytes :=
  match code128_render row3 with
  | None => None
  | Some svg =>
      match svg2png svg 10 with
      | None => None
      | Some png =>
          svg2pdf
            (Py.encode_utf8 (id_back (template_back cfg) (b64_str png)))
            323 204
      end
  end.

(** The photo of a record in a file system. *)
Definition photo_of (row : list str) (files : gmap str bytes)
  : option bytes :=
  row2 ← row !! 2; row4 ← row !! 4; files !! photo_path row2 row4.

(** The merged document of a record: the pages of its front document
    followed by the pages of its back document. *)
Definition document (row : list str) (photo : bytes) : option bytes :=
  row0 ← row !! 0; row1 ← row !! 1; row2 ← row !! 2; row3 ← row !! 3;
  fc ← front_pdf row0 row1 row2 row3 photo; bc ← back_pdf row3;
  fp ← pdf_pages fc; bp ← pdf_pages bc;
  Some (pdf_write (fp ++ bp)).

End Script.

(** ** Templates as text and placeholder tokens

    The specification of rendering speaks of the occurrences of the tokens
    in a template and of the text outside them.  A template that is given as a
    sequence of such pieces is a [list seg]; [flatten] is the markup the
    script reads. *)

Inductive token := NAME | YEAR | ID | PHOTO | BARCODE.

Definition token_text (t : token) : str :=
  match t with
  | NAME => "<!-- NAME -->"
  | YEAR => "<!-- YEAR -->"
  | ID => "<!-- ID -->"
  | PHOTO => "<!-- PHOTO -->"
  | BARCODE => "<!-- BARCODE -->"
  end.

Definition token_eqb (t1 t2 : token) : bool :=
  match t1, t2 with
  | NAME, NAME | YEAR, YEAR | ID, ID | PHOTO, PHOTO | BARCODE, BARCODE => true
  | _, _ => false
  end.

Inductive seg :=
  | Lit (text : str)
  | Tok (t : token).

Definition seg_text (sg : seg) : str :=
  match sg with
  | Lit text => text
  | Tok t => token_text t
  end.

Definition flatten (segs : list seg) : str := flat_map seg_text segs.

(** The value a list of substitutions gives a token: the first one listed. *)
Fixpoint value_of (subs : list (token * str)) (t : token) : option str :=
  match subs with
  | [] => None
  | (t', v) :: subs' => if token_eqb t' t then Some v else value_of subs' t
  end.

(** Every token occurrence replaced by its value at once, the rest kept. *)
Definition fill (subs : list (token * str)) (sg : seg) : seg :=
  match sg with
  | Lit text => Lit text
  | Tok t =>
      match value_of subs t with
      | Some v => Lit v
      | None => Tok t
      end
  end.

(** The substitutions made one after the other, as chained [replace] calls. *)
Definition substitute (subs : list (token * str)) (markup : str) : str :=
  fold_left (fun s '(t, v) => Py.replace s (token_text t) v) subs markup.

Definition front_subs (row0 row1 row2 row3 image_str : str)
  : list (token * str) :=
  [(NAME, row0 ++ " " ++ row1); (YEAR, row2); (ID, row3); (PHOTO, image_str)].

Definition back_subs (id_barcode : str) : list (token * str) :=
  [(BARCODE, id_barcode)].

(** The non-empty suffixes of a text. *)
Fixpoint tails (p : str) : list str :=
  match p with
  | [] => []
  | _ :: p' => p :: tails p'
  end.

(** A mismatch within the common length of [p] and [old]: [old] does not
    start at [p], whatever follows [p]. *)
Fixpoint clash (p old : str) : bool :=
  match p, old with
  | a :: p', b :: old' => negb (Ascii.eqb b a) || clash p' old'
  | _, _ => false
  end.

Definition all_tokens : list token := [NAME; YEAR; ID; PHOTO; BARCODE].

(** Text that does not collide with the placeholder syntax: no token occurs
    in it and it does not end with the beginning of one, so that no token
    starts inside it, whatever text follows. *)
Definition inertb (s : str) : bool :=
  forallb (fun t => forallb (fun p => clash p (token_text t)) (tails s))
          all_tokens.

Definition inert (s : str) : Prop := inertb s = true.

Definition inert_seg (sg : seg) : Prop :=
  match sg with
  | Lit text => inert text
  | Tok _ => True
  end.

(** ** Rows *)

(** [s.lower()] on the letters A to Z. *)
Definition lower_char (c : ascii) : ascii :=
  let n := N_of_ascii c in
  if ((65 <=? n) && (n <=? 90))%N then ascii_of_N (n + 32) else c.

Definition lower (s : str) : str := map lower_char s.

(** [c.isspace()] for the code points below 256. *)
Definition isspace (c : ascii) : bool :=
  let n := N_of_ascii c in
  ((9 <=? n) && (n <=? 13) || (28 <=? n) && (n <=? 32)
   || (n =? 133) || (n =? 160))%N.

(** A row that gets an ID card: it is not the header and its photo cell
    is not empty. *)
Definition has_photo (row : list str) : Prop :=
  row <> header /\ row !! 4 <> Some [].

(** ** Auxiliary notions of the proofs *)

(** A byte that [repr] shows as itself and that is neither a quote nor the
    character a token starts with. *)
Definition b64_safe (b : byte) : bool :=
  bool_decide (Py.repr_byte Py.single_quote b = [ascii_of_byte b])
  && negb (Ascii.eqb (ascii_of_byte b) Py.single_quote)
  && negb (Ascii.eqb (ascii_of_byte b) "<"%char).

(** The directory part [os.path.join] puts before a relative name. *)
Definition dir (p : str) : str :=
  if bool_decide (p = []) || Py.endswith p "/" then p else p ++ "/".

(** A computation only adds to the log of calls. *)
Definition grows {A} (m : M A) : Prop :=
  forall w r w', m w = (r, w') -> calls w `prefix_of` calls w'.

(** A computation leaves the files as they are. *)
Definition keeps_fs {A} (m : M A) : Prop :=
  forall w r w', m w = (r, w') -> fs w' = fs w.

(** ** A stand-in for the libraries

    Enough of an implementation of the interface to run the script on
    concrete rows: a document has one page for every byte of the markup it
    was made from, and a file holds the pages of its document one after the
    other; no date is written, every file can be created and only a
    character that is not ASCII makes the barcode fail. *)

Module Stub.

Definition is_ascii (c : ascii) : bool := (N_of_ascii c <? 128)%N.

#[export] Instance libraries : Libraries := {|
  page := byte;
  code128_render code :=
    if forallb is_ascii code then Some (Py.encode_utf8 code) else None;
  code128_error code := IllegalCharacterError code;
  svg2png svg scale := Some svg;
  svg2pdf svg w h := Some svg;
  svg2pdf_partial svg w h := None;
  pdf_stamp moment pdf := pdf;
  svg2pdf_create files path := None;
  open_wb_error files path := None;
  pdf_pages content := Some content;
  pdf_write pages := pages;
  pdf_pages_stamp moment pdf := eq_refl;
|}.

Definition front : list seg :=
  [Lit "<!-- card --><b>"; Tok NAME; Lit "</b> "; Tok YEAR; Lit " ";
   Tok ID; Lit " "; Tok PHOTO].

Definition back : list seg := [Lit "["; Tok BARCODE; Lit "]"].

Definition cfg : config := {|
  images_path := "images";
  output_path := "out";
  debug := false;
  template_front := flatten front;
  template_back := flatten back;
|}.

(** Two students with the same identifier, a student without a photo, a
    student whose photo cell is two spaces, a row that is too short and
    the header in lower case. *)
Definition ada : list str :=
  ["Ada" : str; "Lovelace" : str; "2099" : str; "S1001" : str; "p1" : str].
Definition grace : list str :=
  ["Grace" : str; "Hopper" : str; "2098" : str; "S1001" : str; "p2" : str].
Definition absent : list str :=
  ["Fake" : str; "Student" : str; "2099" : str; "S0" : str; "" : str].
Definition blank : list str :=
  ["Ada" : str; "Lovelace" : str; "2099" : str; "S1001" : str; "  " : str].
Definition short : list str := ["Ada" : str; "Lovelace" : str].
Definition lower_header : list str :=
  ["first" : str; "last" : str; "year" : str; "id number" : str;
   "photo number" : str].

Definition photo1 : bytes := [x4d; x61; x6e].
Definition photo2 : bytes := [x4d; x61].

(** A world with the two photos and a world without any file. *)
Definition w0 : world := {|
  fs := {[ lit "images/2099/p1.jpg" := photo1;
           lit "images/2098/p2.jpg" := photo2 ]};
  stdout := [];
  calls := [];
|}.

Definition nothing : world := World ∅ [] [].

End Stub.

(** ** The rest of the script and further notions *)

(** Lines 88 to 91 test the templates at [os.path.join(template_path, name)];
    lines 112 to 118 open them at [template_path + name]. *)
Definition checked_template (template_path name : str) : str :=
  Py.path_join template_path [name].

Definition opened_template (template_path name : str) : str :=
  template_path ++ name.

(** [old in s] *)
Definition occurs (old s : str) : Prop := exists a b, s = a ++ old ++ b.

(** The same test as a function: some suffix of [s] starts with [old]. *)
Definition occursb (old s : str) : bool :=
  existsb (fun p => Py.startswith p old) (tails s).

(** The configuration with the [--debug] flag set to [b]. *)
Definition set_debug (b : bool) (cfg : config) : config :=
  Config (images_path cfg) (output_path cfg) b (template_front cfg)
         (template_back cfg).



Section ScriptNames.
Context `{Libraries}.
Variable cfg : config.

(** What debug mode prints for a record (lines 192 to 217). *)
Definition debug_lines (row0 row1 row2 row3 : str) (photo png : bytes)
  : list str :=
  if debug cfg then
    ["Barcode of id " ++ row3 ++ ":"; b64_str png; lit "ID Front:";
     id_front (template_front cfg) row0 row1 row2 row3 (b64_str photo);
     lit "ID Back:"; id_back (template_back cfg) (b64_str png)]
  else [].

(** The calls a record makes when nothing raises, in their order. *)
Definition record_calls (row2 row3 row4 : str) : list call :=
  [OpenRead (photo_path cfg row2 row4); Code128 row3; Svg2Png;
   Svg2Pdf (front_path cfg row3); Svg2Pdf (back_path cfg row3);
   OpenRead (front_path cfg row3); OpenRead (back_path cfg row3);
   OpenWrite (out_path cfg row3)].

(** The three paths a row writes to: those of its identifier. *)
Definition record_files (row : list str) (p : str) : Prop :=
  exists row3,
    row !! 3 = Some row3
    /\ (p = front_path cfg row3 \/ p = back_path cfg row3
        \/ p = out_path cfg row3).

End ScriptNames.

(** A computation changes no file but those at the paths [P], and removes
    none. *)
Definition writes (P : str -> Prop) {A} (m : M A) : Prop :=
  forall w r w', m w = (r, w') ->
    forall p, fs w' !! p = fs w !! p \/ (P p /\ is_Some (fs w' !! p)).

(** A computation prints nothing. *)
Definition quiet {A} (m : M A) : Prop :=
  forall w r w', m w = (r, w') -> stdout w' = stdout w.

(** Two worlds with the same files and the same log of calls. *)
Definition same_disk (w1 w2 : world) : Prop :=
  fs w1 = fs w2 /\ calls w1 = calls w2.

(** Two computations that, from such worlds, give the same result and end
    in such worlds. *)
Definition agree {A} (m1 m2 : M A) : Prop :=
  forall w1 w2, same_disk w1 w2 ->
    (m1 w1).1 = (m2 w2).1 /\ same_disk (m1 w1).2 (m2 w2).2.

(** A computation that only prints. *)
Definition chatter (m : M unit) : Prop :=
  forall w, exists out, m w = (Ok tt, World (fs w) out (calls w)).

(** ** A stand-in with dates, directories and failures

    A file holds one byte for its date and then one byte for every page;
    the rasterizer refuses empty markup after it has created the file; the
    only directories are [out/] and [out/tmp/]; the barcode refuses the
    empty code and every character that is not ASCII. *)

Module Strict.

(** A path in the directory [d], with no further directory in between. *)
Definition in_dir (d path : str) : bool :=
  Py.startswith path d
  && negb (existsb (Ascii.eqb "/"%char) (drop (length d) path)).

Definition creatable (path : str) : bool :=
  in_dir "out/tmp/" path || in_dir "out/" path.

Definition libraries : Libraries := {|
  page := byte;
  code128_render code :=
    match code with
    | [] => None
    | _ =>
        if forallb Stub.is_ascii code then Some (Py.encode_utf8 code)
        else None
    end;
  code128_error code :=
    match code with
    | [] => IndexError
    | _ => IllegalCharacterError code
    end;
  svg2png svg scale := Some svg;
  svg2pdf svg w h := match svg with [] => None | _ => Some (x00 :: svg) end;
  svg2pdf_partial svg w h := Some [];
  pdf_stamp moment pdf :=
    match pdf with
    | [] => []
    | _ :: pages => Py.byte_of_N (N.of_nat moment) :: pages
    end;
  svg2pdf_create files path :=
    if creatable path then None else Some (OSError path);
  open_wb_error files path :=
    if creatable path then None else Some (FileNotFoundError path);
  pdf_pages content := Some (drop 1 content);
  pdf_write pages := x00 :: pages;
  pdf_pages_stamp moment pdf :=
    match pdf with [] => eq_refl | _ :: _ => eq_refl end;
|}.

(** A back template that renders to nothing. *)
Definition cfg : config := {|
  images_path := "images";
  output_path := "out";
  debug := false;
  template_front := "<!-- NAME -->";
  template_back := "";
|}.


End Strict.

(** * Properties *)

(** ** The string operations on examples *)

Example replace_all_occurrences :
  Py.replace "a<!-- ID -->b<!-- ID -->" "<!-- ID -->" "7" = lit "a7b7".
Proof. reflexivity. Qed.

Example replace_no_overlap : Py.replace "aaa" "aa" "b" = lit "ba".
Proof. reflexivity. Qed.

Example replace_empty_old : Py.replace "abc" "" "-" = lit "-a-b-c-".
Proof. reflexivity. Qed.

Example path_join_plain :
  Py.path_join "images" ["2099" : str; "p1.jpg" : str] = lit "images/2099/p1.jpg".
Proof. reflexivity. Qed.

Example path_join_absolute :
  Py.path_join "images/" ["/etc" : str; "p1.jpg" : str] = lit "/etc/p1.jpg".
Proof. reflexivity. Qed.

Example b64_str_Ma :
  Py.slice_2_m1 (Py.repr_bytes (Py.b64encode (map byte_of_ascii (lit "Ma"))))
  = lit "TWE=".
Proof. reflexivity. Qed.

(** ** Facts about the string operations *)

Section StringFacts.
Implicit Types s p old new rest : str.

Lemma startswith_app p rest : Py.startswith (p ++ rest) p = true.
Proof.
  induction p as [|a p IH]; [reflexivity|]. cbn. by rewrite Ascii.eqb_refl, IH.
Qed.

Lemma startswith_inv s p :
  Py.startswith s p = true -> exists rest, s = p ++ rest.
Proof.
  revert s. induction p as [|a p IH]; intros s Hs; [by exists s|].
  destruct s as [|b s]; [done|]. cbn in Hs.
  apply andb_prop in Hs as [Hab Hs]. apply Ascii.eqb_eq in Hab as ->.
  destruct (IH _ Hs) as [rest ->]. by exists rest.
Qed.

Lemma replace_go_skip old new k s :
  Py.replace_go old new k s = Py.replace_go old new 0 (drop k s).
Proof.
  revert k. induction s as [|c s IH]; intros [|k]; try done.
  cbn [Py.replace_go drop]. apply IH.
Qed.

Lemma replace_nil old new : old <> [] -> Py.replace [] old new = [].
Proof. by destruct old. Qed.

(** An occurrence at the head is replaced and the scan resumes after it. *)
Lemma replace_match old new s :
  old <> [] -> Py.replace (old ++ s) old new = new ++ Py.replace s old new.
Proof.
  destruct old as [|a old]; [done|]. intros _. unfold Py.replace.
  change ((a :: old) ++ s) with (a :: (old ++ s)).
  cbn [Py.replace_go].
  change (a :: old ++ s) with ((a :: old) ++ s).
  rewrite startswith_app, replace_go_skip. cbn [length].
  replace (S (length old) - 1) with (length old) by lia.
  by rewrite drop_app_length.
Qed.

(** Where no occurrence starts, the character is kept. *)
Lemma replace_keep old new c s :
  old <> [] -> Py.startswith (c :: s) old = false ->
  Py.replace (c :: s) old new = c :: Py.replace s old new.
Proof.
  destruct old as [|a old]; [done|]. intros _ Hs. unfold Py.replace.
  cbn [Py.replace_go]. by rewrite Hs.
Qed.

(** A stretch of text in which no occurrence starts is copied. *)
Lemma replace_through old new p rest :
  old <> [] ->
  Forall (fun p2 => Py.startswith (p2 ++ rest) old = false) (tails p) ->
  Py.replace (p ++ rest) old new = p ++ Py.replace rest old new.
Proof.
  intros Hold. induction p as [|c p IH]; intros Hp; [done|].
  cbn [tails] in Hp. apply Forall_cons in Hp as [Hc Hp].
  cbn. rewrite replace_keep; [|done|done]. by rewrite IH.
Qed.

Lemma clash_startswith p old rest :
  clash p old = true -> Py.startswith (p ++ rest) old = false.
Proof.
  revert old. induction p as [|a p IH]; intros [|b old] Hc; try done.
  cbn in *. destruct (Ascii.eqb b a); [|done]. cbn in *. by apply IH.
Qed.

(** Text without the token is returned as it is. *)
Lemma replace_absent old new s :
  old <> [] -> (forall a b, s <> a ++ old ++ b) ->
  Py.replace s old new = s.
Proof.
  intros Hold. induction s as [|c s IH]; intros Hs; [by apply replace_nil|].
  rewrite replace_keep; [|done|].
  - f_equal. apply IH. intros a b ->. by apply (Hs (c :: a) b).
  - destruct (Py.startswith (c :: s) old) eqn:E; [|done].
    apply startswith_inv in E as [rest E]. by destruct (Hs [] rest).
Qed.

End StringFacts.

(** ** Facts about base64 payloads *)

Section Base64Facts.

(** Induction three bytes at a time, as [b64encode] recurses. *)
Lemma triples_ind {A} (P : list A -> Prop) :
  P [] -> (forall a, P [a]) -> (forall a b, P [a; b]) ->
  (forall a b c l, P l -> P (a :: b :: c :: l)) ->
  forall l, P l.
Proof.
  intros H0 H1 H2 H3 l.
  enough (P l /\ (forall a, P (a :: l)) /\ (forall a b, P (a :: b :: l)))
    by tauto.
  induction l as [|x l (IH0 & IH1 & IH2)]; [by auto|].
  split; [apply IH1|]. split; [intros; apply IH2|]. intros; by apply H3.
Qed.

Lemma b64_symbols_safe :
  forallb b64_safe (Py.b64_pad :: Py.b64_alphabet) = true.
Proof. vm_compute. reflexivity. Qed.

Lemma b64_digit_safe n : b64_safe (Py.b64_digit n) = true.
Proof.
  pose proof b64_symbols_safe as Hall.
  rewrite forallb_forall in Hall. apply Hall. unfold Py.b64_digit.
  destruct (nth_in_or_default (N.to_nat (n mod 64)) Py.b64_alphabet Py.b64_pad)
    as [Hin| ->]; [by right | by left].
Qed.

Lemma b64_pad_safe : b64_safe Py.b64_pad = true.
Proof. reflexivity. Qed.

Lemma b64encode_safe bs : Forall (fun b => b64_safe b = true) (Py.b64encode bs).
Proof.
  induction bs as [|a|a b|a b c l IH] using triples_ind; cbn [Py.b64encode].
  - constructor.
  - repeat constructor; auto using b64_digit_safe, b64_pad_safe.
  - repeat constructor; auto using b64_digit_safe, b64_pad_safe.
  - cbn [app]. repeat (constructor; [apply b64_digit_safe|]). exact IH.
Qed.

Lemma repr_safe_bytes bs :
  Forall (fun b => b64_safe b = true) bs ->
  Py.repr_bytes bs = "b" ++ [Py.single_quote] ++ map ascii_of_byte bs ++ [Py.single_quote].
Proof.
  intros Hbs. unfold Py.repr_bytes.
  assert (Py.has_byte Py.single_quote bs = false) as ->.
  { induction Hbs as [|b bs Hb _ IH]; [done|]. cbn.
    unfold b64_safe in Hb. apply andb_prop in Hb as [Hb _].
    apply andb_prop in Hb as [_ Hb].
    apply negb_true_iff in Hb. by rewrite Hb. }
  cbn [andb]. do 3 f_equal.
  induction Hbs as [|b bs Hb _ IH]; [done|]. cbn [flat_map map].
  unfold b64_safe in Hb. apply andb_prop in Hb as [Hb _].
  apply andb_prop in Hb as [Hb _]. apply bool_decide_eq_true in Hb.
  by rewrite Hb, IH.
Qed.

(** The payload is the base64 text itself: [str(...)[2:-1]] takes away
    exactly the [b'] and the ['] that [repr] puts around it. *)
Lemma b64_str_text content :
  b64_str content = map ascii_of_byte (Py.b64encode content).
Proof.
  unfold b64_str. rewrite repr_safe_bytes by apply b64encode_safe.
  unfold Py.slice_2_m1. cbn [app drop lit list_ascii_of_string].
  apply removelast_last.
Qed.

Lemma b64_str_no_lt content : "<"%char ∉ b64_str content.
Proof.
  rewrite b64_str_text.
  pose proof (b64encode_safe content) as Hs.
  induction Hs as [|b bs Hb _ IH]; cbn [map]; [by apply not_elem_of_nil|].
  apply not_elem_of_cons. split; [|done].
  unfold b64_safe in Hb. apply andb_prop in Hb as [_ Hb].
  apply negb_true_iff, Ascii.eqb_neq in Hb. congruence.
Qed.

End Base64Facts.

(** ** Facts about rendering *)

Section RenderFacts.
Implicit Types (t : token) (v text rest : str) (segs : list seg)
  (subs : list (token * str)).

Lemma token_eqb_eq t1 t2 : token_eqb t1 t2 = true <-> t1 = t2.
Proof. by destruct t1, t2. Qed.

Lemma token_text_ne t : token_text t <> [].
Proof. by destruct t. Qed.

Lemma token_text_head t : exists body, token_text t = "<"%char :: body.
Proof. destruct t; eexists; reflexivity. Qed.

Lemma elem_of_all_tokens t : In t all_tokens.
Proof. destruct t; cbn; tauto. Qed.

(** No token starts inside the text of another one. *)
Lemma token_clash t t' :
  token_eqb t t' = false ->
  Forall (fun p => clash p (token_text t) = true) (tails (token_text t')).
Proof. destruct t, t'; intros Hne; try done; repeat constructor. Qed.

Lemma replace_other_token t t' v rest :
  token_eqb t t' = false ->
  Py.replace (token_text t' ++ rest) (token_text t) v
  = token_text t' ++ Py.replace rest (token_text t) v.
Proof.
  intros Hne. apply replace_through; [apply token_text_ne|].
  eapply Forall_impl; [by apply token_clash|].
  intros p Hp. by apply clash_startswith.
Qed.

Lemma inert_clash text t :
  inert text ->
  Forall (fun p => clash p (token_text t) = true) (tails text).
Proof.
  unfold inert, inertb. rewrite forallb_forall. intros Hall.
  apply Forall_forall. intros p Hp.
  specialize (Hall t (elem_of_all_tokens t)).
  rewrite forallb_forall in Hall. apply Hall. by apply list_elem_of_In.
Qed.

Lemma replace_inert_text t v text rest :
  inert text ->
  Py.replace (text ++ rest) (token_text t) v
  = text ++ Py.replace rest (token_text t) v.
Proof.
  intros Htext. apply replace_through; [apply token_text_ne|].
  eapply Forall_impl; [by apply (inert_clash _ t)|].
  intros p Hp. by apply clash_startswith.
Qed.

Lemma inert_nil : inert [].
Proof. reflexivity. Qed.

Lemma inert_cons c text :
  inert (c :: text) <->
  (forall t, clash (c :: text) (token_text t) = true) /\ inert text.
Proof.
  unfold inert, inertb. rewrite !forallb_forall. split.
  - intros Hall. split.
    + intros t. specialize (Hall t (elem_of_all_tokens t)).
      cbn [tails forallb] in Hall. by apply andb_prop in Hall as [? _].
    + intros t Ht. specialize (Hall t Ht).
      cbn [tails forallb] in Hall. by apply andb_prop in Hall as [_ ?].
  - intros [Hc Htext] t Ht. cbn [tails forallb].
    by rewrite Hc, (Htext t Ht).
Qed.

Lemma clash_app p q old : clash p old = true -> clash (p ++ q) old = true.
Proof.
  revert old. induction p as [|a p IH]; intros [|b old] Hc; try done.
  cbn in *. destruct (negb (Ascii.eqb b a)); [done|]. by apply IH.
Qed.

(** Text that does not collide, followed by such text, does not. *)
Lemma inert_app text1 text2 : inert text1 -> inert text2 -> inert (text1 ++ text2).
Proof.
  intros H1 H2. induction text1 as [|c text1 IH]; [done|].
  apply inert_cons in H1 as [Hc H1]. cbn [app]. apply inert_cons.
  split; [|by apply IH]. intros t. by apply (clash_app (c :: text1)).
Qed.

(** Text without a [<] cannot collide. *)
Lemma no_lt_inert text : "<"%char ∉ text -> inert text.
Proof.
  induction text as [|c text IH]; [done|].
  intros [Hc Htext]%not_elem_of_cons. apply inert_cons.
  split; [|by apply IH]. intros t.
  destruct (token_text_head t) as [body ->]. cbn [clash].
  apply orb_true_intro. left. apply negb_true_iff, Ascii.eqb_neq. congruence.
Qed.

Lemma b64_str_inert content : inert (b64_str content).
Proof. apply no_lt_inert, b64_str_no_lt. Qed.

(** One [replace] call replaces exactly the occurrences of its token. *)
Lemma replace_flatten t v segs :
  Forall inert_seg segs ->
  Py.replace (flatten segs) (token_text t) v
  = flatten (map (fill [(t, v)]) segs).
Proof.
  induction 1 as [|sg segs Hsg Hsegs IH].
  { apply replace_nil, token_text_ne. }
  cbn [flatten flat_map map]. fold (flatten segs).
  fold (flatten (map (fill [(t, v)]) segs)).
  destruct sg as [text|t']; cbn [seg_text fill value_of].
  - rewrite replace_inert_text by done. by rewrite IH.
  - destruct (token_eqb t t') eqn:E.
    + apply token_eqb_eq in E as <-. cbn [seg_text].
      rewrite replace_match by apply token_text_ne. by rewrite IH.
    + cbn [seg_text]. rewrite replace_other_token by done. by rewrite IH.
Qed.

Lemma fill_cons t v subs sg :
  fill subs (fill [(t, v)] sg) = fill ((t, v) :: subs) sg.
Proof.
  destruct sg as [text|t']; [done|]. cbn [fill value_of].
  by destruct (token_eqb t t').
Qed.

Lemma fill_inert t v sg : inert v -> inert_seg sg -> inert_seg (fill [(t, v)] sg).
Proof.
  intros Hv Hsg. destruct sg as [text|t']; [done|]. cbn.
  by destruct (token_eqb t t').
Qed.

(** Chained [replace] calls with values that do not collide with the
    placeholder syntax are the substitution of all tokens at once. *)
Lemma substitute_flatten subs segs :
  Forall inert_seg segs -> Forall (fun s => inert s.2) subs ->
  substitute subs (flatten segs) = flatten (map (fill subs) segs).
Proof.
  intros Hsegs Hsubs. revert segs Hsegs.
  induction Hsubs as [|[t v] subs Hv _ IH]; intros segs Hsegs.
  - cbn [substitute fold_left]. f_equal. symmetry.
    rewrite <- (map_id segs) at 2. apply map_ext. by intros [?|?].
  - cbn [substitute fold_left]. rewrite replace_flatten by done.
    fold (substitute subs). rewrite IH.
    + f_equal. rewrite map_map. apply map_ext. intros sg. apply fill_cons.
    + apply Forall_map. eapply Forall_impl; [exact Hsegs|].
      intros sg. by apply fill_inert.
Qed.

(** The value of a token does not depend on the order of an assignment
    that names every token once. *)
Lemma value_of_perm subs subs' t :
  NoDup subs.*1 -> subs ≡ₚ subs' -> value_of subs t = value_of subs' t.
Proof.
  intros Hnd Hperm.
  induction Hperm
    as [|[t1 v1] l l' Hp IH|[t1 v1] [t2 v2] l|l l' l'' Hp1 IH1 Hp2 IH2].
  - done.
  - cbn. destruct (token_eqb t1 t); [done|]. apply IH.
    by apply NoDup_cons in Hnd as [_ Hnd].
  - cbn. destruct (token_eqb t2 t) eqn:E2, (token_eqb t1 t) eqn:E1; try done.
    apply token_eqb_eq in E1, E2. subst.
    cbn in Hnd. apply NoDup_cons in Hnd as [Hnd _]. destruct Hnd. by left.
  - rewrite IH1 by done. apply IH2. by rewrite <- Hp1.
Qed.

End RenderFacts.

(** ** Facts about paths *)

Section PathFacts.
Implicit Types p b o id : str.

Lemma path_join2_dir p b :
  Py.path_join2 p b = if Py.startswith b "/" then b else dir p ++ b.
Proof.
  unfold Py.path_join2, dir. destruct (Py.startswith b "/"); [done|].
  destruct (bool_decide (p = []) || Py.endswith p "/"); [done|].
  by rewrite <- app_assoc.
Qed.

Lemma startswith_slash_app id a b :
  Py.startswith a "/" = false -> Py.startswith b "/" = false ->
  Py.startswith (id ++ a) "/" = Py.startswith (id ++ b) "/".
Proof. destruct id; [cbn [app]; congruence | done]. Qed.

Lemma dir_tmp o : dir (dir o ++ "tmp") = dir o ++ "tmp/".
Proof.
  unfold dir at 1. rewrite bool_decide_eq_false_2.
  - unfold Py.endswith. rewrite reverse_app.
    change (reverse (lit "tmp")) with (lit "pmt").
    cbn [orb lit list_ascii_of_string app reverse Py.startswith].
    change (reverse (lit "/")) with (lit "/").
    cbn [lit list_ascii_of_string Py.startswith].
    change (Ascii.eqb "/" "p") with false. cbn [andb].
    by rewrite <- app_assoc.
  - intros Hnil. apply (f_equal length) in Hnil.
    rewrite length_app in Hnil. cbn in Hnil. lia.
Qed.

(** The two intermediate files of a record are different files. *)
Lemma front_ne_back o id :
  Py.path_join o ["tmp" : str; id ++ "-front.pdf"]
  <> Py.path_join o ["tmp" : str; id ++ "-back.pdf"].
Proof.
  unfold Py.path_join. cbn [fold_left]. rewrite !(path_join2_dir _ (id ++ _)).
  rewrite (startswith_slash_app id "-front.pdf" "-back.pdf") by done.
  destruct (Py.startswith (id ++ "-back.pdf") "/").
  - intros Heq. by apply app_inv_head in Heq.
  - intros Heq. by do 2 apply app_inv_head in Heq.
Qed.

(** The merged document is neither of the intermediate files. *)
Lemma out_ne_tmp o id side :
  Py.startswith side "/" = false -> length side > 4 ->
  Py.path_join o [id ++ ".pdf"]
  <> Py.path_join o ["tmp" : str; id ++ side].
Proof.
  intros Hrel Hside. unfold Py.path_join. cbn [fold_left].
  rewrite !(path_join2_dir _ (id ++ _)).
  rewrite (startswith_slash_app id ".pdf" side)
    by done.
  destruct (Py.startswith (id ++ side) "/").
  - intros Heq. apply app_inv_head in Heq. subst. cbn in Hside. lia.
  - rewrite (path_join2_dir o "tmp").
    change (Py.startswith (lit "tmp") (lit "/")) with false. cbn match.
    rewrite dir_tmp, <- app_assoc.
    intros Heq. apply app_inv_head in Heq. apply (f_equal length) in Heq.
    rewrite !length_app in Heq. cbn in Heq. lia.
Qed.

Lemma endswith_app_last p b :
  b <> [] -> Py.endswith (p ++ b) "/" = Py.endswith b "/".
Proof.
  intros Hb. unfold Py.endswith. rewrite reverse_app.
  destruct (reverse b) as [|c rb] eqn:E; [|done].
  apply (f_equal length) in E. rewrite length_reverse in E.
  by destruct b.
Qed.

Lemma dir_relative p : p <> [] -> Py.endswith p "/" = false -> dir p = p ++ "/".
Proof.
  intros Hp Hend. unfold dir. by rewrite bool_decide_eq_false_2, Hend.
Qed.

(** With an images directory and a year that are plain names, the photo is
    looked up at [images/year/photo.jpg]. *)
Lemma path_join_plain_names images year photo :
  images <> [] -> Py.endswith images "/" = false ->
  year <> [] -> Py.startswith year "/" = false ->
  Py.endswith year "/" = false -> Py.startswith photo "/" = false ->
  Py.path_join images [year; photo ++ ".jpg"]
  = images ++ "/" ++ year ++ "/" ++ photo ++ ".jpg".
Proof.
  intros Hi Hie Hy Hys Hye Hp. unfold Py.path_join. cbn [fold_left].
  rewrite !path_join2_dir, Hys.
  assert (Py.startswith (photo ++ ".jpg") "/" = false) as ->
    by (by destruct photo).
  rewrite (dir_relative images) by done.
  rewrite dir_relative.
  - by rewrite <- !app_assoc.
  - by destruct images.
  - by rewrite endswith_app_last.
Qed.

End PathFacts.

(** ** Facts about the monad and the script *)

Section MonadFacts.

Lemma bind_Ok {A B} (m : M A) (k : A -> M B) w a w1 :
  m w = (Ok a, w1) -> bind m k w = k a w1.
Proof. unfold bind. by intros ->. Qed.

Lemma bind_Raise {A B} (m : M A) (k : A -> M B) w e w1 :
  m w = (Raise e, w1) -> bind m k w = (Raise e, w1).
Proof. unfold bind. by intros ->. Qed.

Lemma bind_inv_Ok {A B} (m : M A) (k : A -> M B) w b w' :
  bind m k w = (Ok b, w') ->
  exists a w1, m w = (Ok a, w1) /\ k a w1 = (Ok b, w').
Proof.
  unfold bind. destruct (m w) as [[a|e] w1]; [|done]. intros Hk.
  by exists a, w1.
Qed.

Lemma index_Some row i field w :
  row !! i = Some field -> index row i w = (Ok field, w).
Proof. unfold index. by intros ->. Qed.

Lemma index_None row i w :
  row !! i = None -> index row i w = (Raise IndexError, w).
Proof. unfold index. by intros ->. Qed.

Lemma index_inv_Ok row i field w w' :
  index row i w = (Ok field, w') -> row !! i = Some field /\ w' = w.
Proof.
  unfold index. destruct (row !! i); [|done]. unfold ret. by intros [= -> ->].
Qed.

(** *** The log of calls only grows *)

Lemma grows_ret {A} (a : A) : grows (ret a).
Proof. by intros w r w' [= <- <-]. Qed.

Lemma grows_raise {A} e : grows (@raise A e).
Proof. by intros w r w' [= <- <-]. Qed.

Lemma grows_bind {A B} (m : M A) (k : A -> M B) :
  grows m -> (forall a, grows (k a)) -> grows (bind m k).
Proof.
  intros Hm Hk w r w'. unfold bind.
  destruct (m w) as [[a|e] w1] eqn:E; intros Hr.
  - etrans; [by eapply Hm | by eapply Hk].
  - injection Hr as <- <-. by eapply Hm.
Qed.

Lemma grows_print line : grows (print line).
Proof. by intros w r w' [= <- <-]. Qed.

Lemma grows_log c : grows (log c).
Proof. intros w r w' [= <- <-]. by apply prefix_app_r. Qed.

Lemma grows_write_file path content : grows (write_file path content).
Proof. by intros w r w' [= <- <-]. Qed.

Lemma grows_when b m : grows m -> grows (when b m).
Proof. destruct b; [done|]. intros _. apply grows_ret. Qed.

Lemma grows_index row i : grows (index row i).
Proof.
  unfold index. destruct (row !! i); [apply grows_ret | apply grows_raise].
Qed.

Lemma grows_open_rb path : grows (open_rb path).
Proof.
  apply grows_bind; [apply grows_log|]. intros _ w r w'.
  destruct (fs w !! path); by intros [= <- <-].
Qed.

Lemma grows_now : grows now.
Proof. by intros w r w' [= <- <-]. Qed.

Lemma grows_create error path content : grows (create error path content).
Proof.
  intros w r w'. unfold create, write_file.
  destruct (error _ _); by intros [= <- <-].
Qed.

End MonadFacts.

Create HintDb grows.
#[export] Hint Resolve grows_ret grows_raise grows_print grows_log
  grows_write_file grows_index grows_open_rb grows_now grows_create : grows.

Ltac grows :=
  repeat first
    [ progress auto with grows
    | apply grows_when
    | apply grows_bind; [|intros ?]
    | match goal with |- grows (match ?x with _ => _ end) => destruct x end ].

Section ScriptCalls.
Context `{Libraries}.
Variable cfg : config.

Lemma grows_id_barcode code : grows (id_barcode code).
Proof. unfold id_barcode. grows. Qed.

Lemma grows_render_pdf markup write_to : grows (render_pdf markup write_to).
Proof. unfold render_pdf. grows. Qed.

Lemma grows_merger_append merger path : grows (merger_append merger path).
Proof. unfold merger_append. grows. Qed.

Lemma grows_open_wb path content : grows (open_wb path content).
Proof. unfold open_wb. grows. Qed.

#[local] Hint Resolve grows_id_barcode grows_render_pdf grows_merger_append
  grows_open_wb : grows.

(** A row that is neither the header nor skipped first opens its photo. *)
Lemma make_id_opens_photo row row2 row4 w :
  row !! 2 = Some row2 -> row !! 4 = Some row4 ->
  exists more,
    calls (make_id cfg row w).2
    = calls w ++ OpenRead (photo_path cfg row2 row4) :: more.
Proof.
  intros H2 H4. unfold make_id.
  rewrite (bind_Ok _ _ _ _ _ (index_Some _ _ _ w H2)).
  rewrite (bind_Ok _ _ _ _ _ (index_Some _ _ _ w H4)).
  fold (photo_path cfg row2 row4).
  set (rest := fun photo : bytes => _).
  assert (forall photo, grows (rest photo)) as Hrest.
  { intros photo. unfold rest. cbv zeta. grows. }
  unfold open_rb, bind at 1 2. cbn [log].
  destruct (fs _ !! _) as [photo|]; cbn [fs].
  - destruct (rest photo _) as [r w'] eqn:E. apply Hrest in E as [more E].
    cbn [calls] in E. cbn [snd]. rewrite E, <- app_assoc. by exists more.
  - cbn [snd calls]. by exists [].
Qed.

End ScriptCalls.

Section FileFacts.

Lemma keeps_fs_ret {A} (a : A) : keeps_fs (ret a).
Proof. by intros w r w' [= <- <-]. Qed.

Lemma keeps_fs_raise {A} e : keeps_fs (@raise A e).
Proof. by intros w r w' [= <- <-]. Qed.

Lemma keeps_fs_bind {A B} (m : M A) (k : A -> M B) :
  keeps_fs m -> (forall a, keeps_fs (k a)) -> keeps_fs (bind m k).
Proof.
  intros Hm Hk w r w'. unfold bind.
  destruct (m w) as [[a|e] w1] eqn:E; intros Hr.
  - etrans; [by eapply Hk | by eapply Hm].
  - injection Hr as <- <-. by eapply Hm.
Qed.

Lemma keeps_fs_print line : keeps_fs (print line).
Proof. by intros w r w' [= <- <-]. Qed.

Lemma keeps_fs_log c : keeps_fs (log c).
Proof. by intros w r w' [= <- <-]. Qed.

Lemma keeps_fs_when b m : keeps_fs m -> keeps_fs (when b m).
Proof. destruct b; [done|]. intros _. apply keeps_fs_ret. Qed.

Lemma keeps_fs_index row i : keeps_fs (index row i).
Proof.
  unfold index. destruct (row !! i); [apply keeps_fs_ret | apply keeps_fs_raise].
Qed.

Lemma keeps_fs_open_rb path : keeps_fs (open_rb path).
Proof.
  apply keeps_fs_bind; [apply keeps_fs_log|]. intros _ w r w'.
  destruct (fs w !! path); by intros [= <- <-].
Qed.

Lemma open_rb_missing path w :
  fs w !! path = None ->
  open_rb path w
  = (Raise (FileNotFoundError path),
     World (fs w) (stdout w) (calls w ++ [OpenRead path])).
Proof. intros Hnone. unfold open_rb, bind, log. cbn [fs]. by rewrite Hnone. Qed.

End FileFacts.

Create HintDb keeps_fs.
#[export] Hint Resolve keeps_fs_ret keeps_fs_raise keeps_fs_print keeps_fs_log
  keeps_fs_index keeps_fs_open_rb : keeps_fs.

Ltac keeps_fs :=
  repeat first
    [ progress auto with keeps_fs
    | apply keeps_fs_when
    | apply keeps_fs_bind; [|intros ?]
    | match goal with |- keeps_fs (match ?x with _ => _ end) => destruct x end ].

Section ScriptFiles.
Context `{Libraries}.
Variable cfg : config.

(** The debug output leaves the files alone. *)
Lemma keeps_fs_debug (m : M unit) w r w' :
  when (debug cfg) m w = (r, w') -> keeps_fs m -> fs w' = fs w.
Proof. intros Hrun Hm. by eapply (keeps_fs_when _ _ Hm). Qed.

Lemma keeps_fs_id_barcode code : keeps_fs (id_barcode code).
Proof. unfold id_barcode. keeps_fs. Qed.

Lemma open_rb_run path content w w' :
  open_rb path w = (Ok content, w') ->
  fs w !! path = Some content
  /\ w' = World (fs w) (stdout w) (calls w ++ [OpenRead path]).
Proof.
  unfold open_rb, bind, log. cbn [fs].
  destruct (fs w !! path); intros Hopen; by simplify_eq.
Qed.

Lemma id_barcode_inv_Ok code payload w w' :
  id_barcode code w = (Ok payload, w') ->
  exists svg png,
    code128_render code = Some svg /\ svg2png svg 10 = Some png
    /\ payload = b64_str png
    /\ w' = World (fs w) (stdout w) (calls w ++ [Code128 code; Svg2Png]).
Proof.
  unfold id_barcode, bind, log, raise, ret. cbn [fs stdout calls].
  destruct (code128_render code) as [svg|] eqn:Hsvg; [|done].
  destruct (svg2png svg 10) as [png|] eqn:Hpng; [|done].
  intros [= <- <-]. exists svg, png. by rewrite <- app_assoc.
Qed.

(** What debug mode prints changes neither the files nor the calls. *)
Lemma debug_prints (b : bool) (m : M unit) (lines : list str) w :
  (forall w0, m w0 = (Ok tt, World (fs w0) (stdout w0 ++ lines) (calls w0))) ->
  when b m w
  = (Ok tt, World (fs w) (stdout w ++ if b then lines else []) (calls w)).
Proof.
  intros Hm. destruct b; cbn [when]; [apply Hm|].
  unfold ret. rewrite app_nil_r. by destruct w.
Qed.

Lemma prints2 (l1 l2 : str) w :
  (print l1 ;;; print l2) w
  = (Ok tt, World (fs w) (stdout w ++ [l1; l2]) (calls w)).
Proof. unfold bind, print. cbn [fs stdout calls]. by rewrite <- app_assoc. Qed.

Lemma prints4 (l1 l2 l3 l4 : str) w :
  (print l1 ;;; print l2 ;;; print l3 ;;; print l4) w
  = (Ok tt, World (fs w) (stdout w ++ [l1; l2; l3; l4]) (calls w)).
Proof. unfold bind, print. cbn [fs stdout calls]. by rewrite <- !app_assoc. Qed.

Lemma create_inv_Ok error path content w w' :
  create error path content w = (Ok tt, w') ->
  error (fs w) path = None
  /\ w' = World (<[path := content]> (fs w)) (stdout w) (calls w).
Proof.
  unfold create, write_file. destruct (error _ _); intros Hk; by simplify_eq.
Qed.

Lemma render_pdf_inv_Ok markup write_to w w' :
  render_pdf markup write_to w = (Ok tt, w') ->
  exists pdf,
    svg2pdf (Py.encode_utf8 markup) 323 204 = Some pdf
    /\ svg2pdf_create (fs w) write_to = None
    /\ w' = World (<[write_to := pdf_stamp (length (calls w) + 1) pdf]> (fs w))
                  (stdout w) (calls w ++ [Svg2Pdf write_to]).
Proof.
  unfold render_pdf. intros Hk.
  apply bind_inv_Ok in Hk as ([] & w1 & Hlog & Hk).
  apply bind_inv_Ok in Hk as (moment & w2 & Hnow & Hk).
  unfold log in Hlog. unfold now in Hnow. simplify_eq. cbn [calls] in Hk.
  destruct (svg2pdf _ _ _) as [pdf|] eqn:Hpdf.
  - apply create_inv_Ok in Hk as [Hnone ->]. cbn [fs stdout calls] in *.
    exists pdf. rewrite length_app. by cbn [length].
  - destruct (svg2pdf_partial _ _ _); [|by unfold raise in *].
    apply bind_inv_Ok in Hk as ([] & w3 & _ & Hk). by unfold raise in *.
Qed.

Lemma merger_append_inv_Ok merger path merger' w w' :
  merger_append merger path w = (Ok merger', w') ->
  exists content pages,
    fs w !! path = Some content /\ pdf_pages content = Some pages
    /\ merger' = merger ++ pages
    /\ w' = World (fs w) (stdout w) (calls w ++ [OpenRead path]).
Proof.
  unfold merger_append. intros Hk.
  apply bind_inv_Ok in Hk as (content & w1 & Hopen & Hk).
  apply open_rb_run in Hopen as [Hc ->].
  destruct (pdf_pages content) as [pages|] eqn:E; [|by unfold raise in *].
  unfold ret in Hk. simplify_eq. by exists content, pages.
Qed.

Lemma open_wb_inv_Ok path content w w' :
  open_wb path content w = (Ok tt, w') ->
  open_wb_error (fs w) path = None
  /\ w' = World (<[path := content]> (fs w)) (stdout w)
                (calls w ++ [OpenWrite path]).
Proof.
  unfold open_wb. intros Hk.
  apply bind_inv_Ok in Hk as ([] & w1 & Hlog & Hk).
  unfold log in Hlog. simplify_eq.
  by apply create_inv_Ok in Hk as [Hnone ->].
Qed.

(** What a row that goes through lines 153 to 255 without an exception
    leaves behind: its two intermediate documents, each with the date of
    the call that wrote it, and their merge. *)
Lemma make_id_ok row w w' :
  make_id cfg row w = (Ok tt, w') ->
  exists row0 row1 row2 row3 row4 photo png fc bc fp bp,
    row !! 0 = Some row0 /\ row !! 1 = Some row1 /\ row !! 2 = Some row2
    /\ row !! 3 = Some row3 /\ row !! 4 = Some row4
    /\ fs w !! photo_path cfg row2 row4 = Some photo
    /\ front_pdf cfg row0 row1 row2 row3 photo = Some fc
    /\ back_pdf cfg row3 = Some bc
    /\ pdf_pages fc = Some fp /\ pdf_pages bc = Some bp
    /\ w'
       = World
           (<[out_path cfg row3 := pdf_write (fp ++ bp)]>
              (<[back_path cfg row3 := pdf_stamp (length (calls w) + 5) bc]>
                 (<[front_path cfg row3
                    := pdf_stamp (length (calls w) + 4) fc]> (fs w))))
           (stdout w ++ debug_lines cfg row0 row1 row2 row3 photo png)
           (calls w ++ record_calls cfg row2 row3 row4).
Proof.
  unfold make_id. intros Hrun.
  apply bind_inv_Ok in Hrun as (row2 & w1 & [H2 ->]%index_inv_Ok & Hrun).
  apply bind_inv_Ok in Hrun as (row4 & w1 & [H4 ->]%index_inv_Ok & Hrun).
  apply bind_inv_Ok in Hrun as (photo & w1 & [Hphoto ->]%open_rb_run & Hrun).
  cbv zeta in Hrun.
  apply bind_inv_Ok in Hrun as (row3 & w2 & [H3 ->]%index_inv_Ok & Hrun).
  apply bind_inv_Ok in Hrun as (payload & w2 & Hbar & Hrun).
  apply id_barcode_inv_Ok in Hbar as (svg & png & Hsvg & Hpng & -> & ->).
  rewrite (bind_Ok _ _ _ _ _ (debug_prints _ _ _ _ (prints2 _ _))) in Hrun.
  apply bind_inv_Ok in Hrun as (row0 & w4 & [H0 ->]%index_inv_Ok & Hrun).
  apply bind_inv_Ok in Hrun as (row1 & w4 & [H1 ->]%index_inv_Ok & Hrun).
  rewrite (bind_Ok _ _ _ _ _ (debug_prints _ _ _ _ (prints4 _ _ _ _))) in Hrun.
  fold (front_path cfg row3) (back_path cfg row3) (out_path cfg row3) in Hrun.
  apply bind_inv_Ok in Hrun
    as ([] & w5 & (fc & Hfc & _ & ->)%render_pdf_inv_Ok & Hrun).
  apply bind_inv_Ok in Hrun
    as ([] & w6 & (bc & Hbc & _ & ->)%render_pdf_inv_Ok & Hrun).
  apply bind_inv_Ok in Hrun
    as (m1 & w7 & (fc' & fp & Hfc' & Hfp & -> & ->)%merger_append_inv_Ok & Hrun).
  apply bind_inv_Ok in Hrun
    as (m2 & w8 & (bc' & bp & Hbc' & Hbp & -> & ->)%merger_append_inv_Ok & Hrun).
  apply open_wb_inv_Ok in Hrun as [_ ->].
  cbn [fs stdout calls] in *.
  rewrite lookup_insert_eq in Hbc'. injection Hbc' as <-.
  rewrite lookup_insert_ne, lookup_insert_eq in Hfc'
    by (apply not_eq_sym, front_ne_back).
  injection Hfc' as <-.
  rewrite pdf_pages_stamp in Hfp, Hbp.
  exists row0, row1, row2, row3, row4, photo, png, fc, bc, fp, bp.
  repeat split; try done.
  { unfold back_pdf. by rewrite Hsvg, Hpng. }
  rewrite !length_app. cbn [length app].
  replace (length (calls w) + 1 + 2 + 1) with (length (calls w) + 4) by lia.
  replace (length (calls w) + 4 + 1) with (length (calls w) + 5) by lia.
  f_equal.
  - unfold debug_lines. rewrite <- app_assoc. by destruct (debug cfg).
  - unfold record_calls, photo_path. by rewrite <- !app_assoc.
Qed.

End ScriptFiles.

(** ** The body of the loop, case by case *)

Section LoopFacts.
Context `{Libraries}.
Variable cfg : config.
Implicit Types (w : world).

Lemma debug_echo (row : list str) w :
  when (debug cfg) (print (Py.join ", " row)) w = (Ok tt, echo cfg row w).
Proof.
  unfold echo, when, print, ret. destruct (debug cfg); [done|].
  destruct w. cbn. by rewrite app_nil_r.
Qed.

Lemma row_eqb_header (row : list str) : row_eqb row header = true <-> row = header.
Proof. apply bool_decide_eq_true. Qed.

Lemma process_row_header w :
  process_row cfg header w = (Ok tt, echo cfg header w).
Proof. unfold process_row. by rewrite (bind_Ok _ _ _ _ _ (debug_echo _ _)). Qed.

(** Past the header check, the row is indexed at 4 (line 148). *)
Lemma process_row_not_header (row : list str) w :
  row <> header ->
  process_row cfg row w =
  bind (index row 4)
    (fun row4 =>
       if bool_decide (row4 = [])
       then row0 <- index row 0 ;; row1 <- index row 1 ;;
            print (skip_message row0 row1)
       else make_id cfg row)
    (echo cfg row w).
Proof.
  intros Hne. unfold process_row.
  rewrite (bind_Ok _ _ _ _ _ (debug_echo _ _)).
  destruct (row_eqb row header) eqn:E; [|done].
  by apply row_eqb_header in E.
Qed.

Lemma process_row_short (row : list str) w :
  row <> header -> length row < 5 ->
  process_row cfg row w = (Raise IndexError, echo cfg row w).
Proof.
  intros Hne Hlen. rewrite process_row_not_header by done.
  apply bind_Raise, index_None, lookup_ge_None. lia.
Qed.

Lemma process_row_skip (row : list str) row0 row1 w :
  row <> header -> row !! 0 = Some row0 -> row !! 1 = Some row1 ->
  row !! 4 = Some [] ->
  process_row cfg row w =
  (Ok tt,
   World (fs w) (stdout (echo cfg row w) ++ [skip_message row0 row1])
         (calls w)).
Proof.
  intros Hne H0 H1 H4. rewrite process_row_not_header by done.
  rewrite (bind_Ok _ _ _ _ _ (index_Some _ _ _ _ H4)).
  rewrite bool_decide_eq_true_2 by done.
  rewrite (bind_Ok _ _ _ _ _ (index_Some _ _ _ _ H0)).
  by rewrite (bind_Ok _ _ _ _ _ (index_Some _ _ _ _ H1)).
Qed.

Lemma process_row_data (row : list str) row4 w :
  row <> header -> row !! 4 = Some row4 -> row4 <> [] ->
  process_row cfg row w = make_id cfg row (echo cfg row w).
Proof.
  intros Hne H4 Hphoto. rewrite process_row_not_header by done.
  rewrite (bind_Ok _ _ _ _ _ (index_Some _ _ _ _ H4)).
  by rewrite bool_decide_eq_false_2.
Qed.

(** A row with an index 4 has the indices below it. *)
Lemma row_fields (row : list str) row4 :
  row !! 4 = Some row4 ->
  exists row0 row1 row2 row3,
    row !! 0 = Some row0 /\ row !! 1 = Some row1 /\ row !! 2 = Some row2
    /\ row !! 3 = Some row3.
Proof.
  destruct row as [|row0 [|row1 [|row2 [|row3 rest]]]]; try done.
  intros _. by exists row0, row1, row2, row3.
Qed.

Lemma make_id_missing_photo (row : list str) row2 row4 w :
  row !! 2 = Some row2 -> row !! 4 = Some row4 ->
  fs w !! photo_path cfg row2 row4 = None ->
  make_id cfg row w =
  (Raise (FileNotFoundError (photo_path cfg row2 row4)),
   World (fs w) (stdout w) (calls w ++ [OpenRead (photo_path cfg row2 row4)])).
Proof.
  intros H2 H4 Hnone. unfold make_id.
  rewrite (bind_Ok _ _ _ _ _ (index_Some _ _ _ _ H2)).
  rewrite (bind_Ok _ _ _ _ _ (index_Some _ _ _ _ H4)).
  apply bind_Raise. by apply open_rb_missing.
Qed.

(** A record whose photo file is not there fails at [open]. *)
Lemma process_row_missing_photo (row : list str) row2 row4 w :
  row <> header -> row !! 2 = Some row2 -> row !! 4 = Some row4 ->
  row4 <> [] -> fs w !! photo_path cfg row2 row4 = None ->
  process_row cfg row w =
  (Raise (FileNotFoundError (photo_path cfg row2 row4)),
   World (fs w) (stdout (echo cfg row w))
         (calls w ++ [OpenRead (photo_path cfg row2 row4)])).
Proof.
  intros Hne H2 H4 Hphoto Hnone.
  rewrite (process_row_data _ _ _ Hne H4 Hphoto).
  by rewrite (make_id_missing_photo _ _ _ _ H2 H4).
Qed.

Lemma process_rows_app pre post w w1 :
  process_rows cfg pre w = (Ok tt, w1) ->
  process_rows cfg (pre ++ post) w = process_rows cfg post w1.
Proof.
  revert w. induction pre as [|row pre IH]; intros w Hpre.
  - unfold process_rows, ret in Hpre. by simplify_eq.
  - cbn [process_rows app] in *.
    apply bind_inv_Ok in Hpre as ([] & w0 & Hrow & Hpre).
    rewrite (bind_Ok _ _ _ _ _ Hrow). by apply IH.
Qed.

(** The script has no handler: what a row raises ends the loop. *)
Lemma process_rows_raise (row : list str) post e w w' :
  process_row cfg row w = (Raise e, w') ->
  process_rows cfg (row :: post) w = (Raise e, w').
Proof. intros Hrow. cbn [process_rows]. by apply bind_Raise. Qed.

End LoopFacts.

(** ** The loop: failure, skipping, the header, malformed rows *)

Section Claims.
Context `{Libraries}.
Variable cfg : config.
Implicit Types (w : world).

Lemma process_row_has_photo (row : list str) w w' :
  has_photo row -> process_row cfg row w = (Ok tt, w') ->
  make_id cfg row (echo cfg row w) = (Ok tt, w').
Proof.
  intros [Hne Hphoto] Hrun. rewrite process_row_not_header in Hrun by done.
  apply bind_inv_Ok in Hrun as (row4 & w1 & [H4 ->]%index_inv_Ok & Hrun).
  rewrite bool_decide_eq_false_2 in Hrun; [done|]. by intros ->.
Qed.

(** What a processed record leaves at the three paths of its identifier:
    the two intermediate files as cairo wrote them, and the document
    merged from their pages. *)
Lemma make_id_files (row : list str) w w' :
  make_id cfg row w = (Ok tt, w') ->
  exists row3 photo fc bc fp bp doc,
    row !! 3 = Some row3
    /\ photo_of cfg row (fs w) = Some photo
    /\ pdf_pages fc = Some fp /\ pdf_pages bc = Some bp
    /\ doc = pdf_write (fp ++ bp)
    /\ document cfg row photo = Some doc
    /\ fs w' !! front_path cfg row3 = Some fc
    /\ fs w' !! back_path cfg row3 = Some bc
    /\ fs w' !! out_path cfg row3 = Some doc.
Proof.
  intros Hrun. apply make_id_ok in Hrun
    as (row0 & row1 & row2 & row3 & row4 & photo & png & fc & bc & fp & bp
        & H0 & H1 & H2 & H3 & H4 & Hphoto & Hfc & Hbc & Hfp & Hbp & ->).
  exists row3, photo, (pdf_stamp (length (calls w) + 4) fc),
    (pdf_stamp (length (calls w) + 5) bc), fp, bp, (pdf_write (fp ++ bp)).
  assert (out_path cfg row3 <> front_path cfg row3) as Hof
    by (by apply out_ne_tmp; [|cbn; lia]).
  assert (out_path cfg row3 <> back_path cfg row3) as Hob
    by (by apply out_ne_tmp; [|cbn; lia]).
  pose proof (front_ne_back (output_path cfg) row3) as Hfb.
  fold (front_path cfg row3) (back_path cfg row3) in Hfb.
  cbn [fs]. rewrite !pdf_pages_stamp. repeat split; try done.
  - unfold photo_of. rewrite H2, H4. exact Hphoto.
  - unfold document. rewrite H0, H1, H2, H3. cbn. rewrite Hfc. cbn.
    rewrite Hbc. cbn. rewrite Hfp. cbn. by rewrite Hbp.
  - by rewrite lookup_insert_ne, lookup_insert_ne, lookup_insert_eq by done.
  - by rewrite lookup_insert_ne, lookup_insert_eq by done.
  - by rewrite lookup_insert_eq.
Qed.

(** C1. A record that raises ends the run there: the rows after it are
    not processed, and the world the run ends in is the one the failing
    record left, so nothing is written for a later record. *)
Theorem run_aborts_at_failing_record
    (pre : list (list str)) (row : list str) (post : list (list str))
    w w1 e w2 :
  process_rows cfg pre w = (Ok tt, w1) ->
  process_row cfg row w1 = (Raise e, w2) ->
  process_rows cfg (pre ++ row :: post) w = (Raise e, w2)
  /\ main cfg (pre ++ row :: post) w = (Raise e, w2).
Proof.
  intros Hpre Hrow.
  assert (process_rows cfg (pre ++ row :: post) w = (Raise e, w2)) as Hrun.
  { rewrite (process_rows_app _ _ _ _ _ Hpre). by apply process_rows_raise. }
  split; [done|]. unfold main. by apply bind_Raise.
Qed.

(** C4. A record with an empty photo cell is reported by name and
    skipped: one line on the standard output, no file read or written,
    no call to a library. *)
Theorem empty_photo_is_skipped (row : list str) w :
  row !! 4 = Some [] ->
  exists row0 row1,
    row !! 0 = Some row0 /\ row !! 1 = Some row1
    /\ process_row cfg row w =
       (Ok tt,
        World (fs w)
              (stdout (echo cfg row w)
               ++ ["Student " ++ row0 ++ " " ++ row1
                   ++ " does not have a photo. Skipping..."])
              (calls w)).
Proof.
  intros H4. destruct (row_fields _ _ H4) as (row0 & row1 & _ & _ & H0 & H1 & _).
  exists row0, row1. split; [done|]. split; [done|].
  apply process_row_skip; try done. intros ->. discriminate H4.
Qed.

(** C6. The header row, and only a row equal to it field by field, passes
    through the loop body without any effect but the debug echo; a row
    that differs from it in case only is processed as data. *)
Theorem header_excluded_iff_exact (row : list str) w :
  (process_row cfg row w = (Ok tt, echo cfg row w) <-> row = header)
  /\ (row <> header -> map lower row = map lower header ->
      process_row cfg row w = make_id cfg row (echo cfg row w)).
Proof.
  split; [split|].
  - intros Hrun. destruct (decide (row = header)) as [|Hne]; [done|exfalso].
    rewrite process_row_not_header in Hrun by done.
    destruct (row !! 4) as [row4|] eqn:H4.
    + rewrite (bind_Ok _ _ _ _ _ (index_Some _ _ _ _ H4)) in Hrun.
      destruct (row_fields _ _ H4) as (row0 & row1 & row2 & _ & H0 & H1 & H2 & _).
      case_bool_decide as Hphoto.
      * rewrite (bind_Ok _ _ _ _ _ (index_Some _ _ _ _ H0)) in Hrun.
        rewrite (bind_Ok _ _ _ _ _ (index_Some _ _ _ _ H1)) in Hrun.
        unfold print in Hrun. injection Hrun as Hout.
        apply (f_equal length) in Hout. rewrite length_app in Hout.
        cbn in Hout. lia.
      * destruct (make_id_opens_photo cfg row row2 row4 (echo cfg row w) H2 H4)
          as [more Hcalls].
        rewrite Hrun in Hcalls. cbn [snd] in Hcalls.
        apply (f_equal length) in Hcalls. rewrite length_app in Hcalls.
        cbn in Hcalls. lia.
    + by rewrite (bind_Raise _ _ _ _ _ (index_None _ _ _ H4)) in Hrun.
  - intros ->. apply process_row_header.
  - intros Hne Hcase.
    destruct row as [|row0 [|row1 [|row2 [|row3 [|row4 rest]]]]]; try done.
    apply (process_row_data _ _ row4); [done|done|].
    intros ->. discriminate Hcase.
Qed.

(** C9. Nothing checks the number of fields: a row other than the header
    with fewer than five fields raises [IndexError] at [row[4]]. *)
Theorem short_row_raises_IndexError (row : list str) w :
  row <> header -> length row < 5 ->
  process_row cfg row w = (Raise IndexError, echo cfg row w).
Proof. apply process_row_short. Qed.

(** C10. Only the empty string is skipped: a record whose photo cell is
    not empty and holds white space only goes on to lines 153 to 255,
    and the first thing it does is open the photo at the path joined
    from the images directory, the year and that name with [.jpg]; when
    no such file exists the [open] raises. *)
Theorem whitespace_photo_is_opened (row : list str) row2 row4 w :
  row !! 2 = Some row2 -> row !! 4 = Some row4 ->
  row4 <> [] -> forallb isspace row4 = true ->
  process_row cfg row w = make_id cfg row (echo cfg row w)
  /\ (exists more,
        calls (process_row cfg row w).2
        = calls w ++ OpenRead (photo_path cfg row2 row4) :: more)
  /\ (fs w !! photo_path cfg row2 row4 = None ->
      process_row cfg row w =
      (Raise (FileNotFoundError (photo_path cfg row2 row4)),
       World (fs w) (stdout (echo cfg row w))
             (calls w ++ [OpenRead (photo_path cfg row2 row4)]))).
Proof.
  intros H2 H4 Hphoto Hspace.
  assert (row <> header) as Hne.
  { intros ->. injection H4 as <-. discriminate Hspace. }
  split; [by apply (process_row_data _ _ row4)|]. split.
  - rewrite (process_row_data _ _ row4) by done.
    apply (make_id_opens_photo cfg row row2 row4 (echo cfg row w) H2 H4).
  - intros Hnone. by apply process_row_missing_photo.
Qed.

End Claims.

Section DocumentClaims.
Context `{Libraries}.
Variable cfg : config.
Implicit Types (w : world).

(** C5. The merger holds the pages of the front document and then the
    pages of the back document, each in their order: the document a
    processed record leaves at [output_path/<id>.pdf] is written from that
    list, whose length is the sum of the two page counts; where reading
    back what [PdfFileMerger.write] wrote gives the pages written, these
    are the pages of the output document. *)
Theorem merged_front_then_back (row : list str) w w' :
  has_photo row -> process_row cfg row w = (Ok tt, w') ->
  exists row3 fc bc fp bp doc,
    row !! 3 = Some row3
    /\ fs w' !! front_path cfg row3 = Some fc /\ pdf_pages fc = Some fp
    /\ fs w' !! back_path cfg row3 = Some bc /\ pdf_pages bc = Some bp
    /\ fs w' !! out_path cfg row3 = Some doc
    /\ doc = pdf_write (fp ++ bp)
    /\ length (fp ++ bp) = length fp + length bp
    /\ ((forall pages, pdf_pages (pdf_write pages) = Some pages) ->
        pdf_pages doc = Some (fp ++ bp)).
Proof.
  intros Hrow Hrun. apply process_row_has_photo in Hrun; [|done].
  apply make_id_files in Hrun
    as (row3 & photo & fc & bc & fp & bp & doc & H3 & _ & Hfp & Hbp
        & -> & _ & Hfront & Hback & Hout).
  exists row3, fc, bc, fp, bp, (pdf_write (fp ++ bp)).
  repeat split; try done. apply length_app.
Qed.

(** C8. Two processed records with the same identifier write the same
    output path, and nothing looks at what is there: after the second
    one the file is the document of the second record, in place of the
    document of the first. *)
Theorem later_record_overwrites
    (code : str) (row1 row2 : list str) w w1 w2 :
  row1 !! 3 = Some code -> row2 !! 3 = Some code ->
  has_photo row1 -> has_photo row2 ->
  process_row cfg row1 w = (Ok tt, w1) ->
  process_row cfg row2 w1 = (Ok tt, w2) ->
  exists photo1 photo2 doc1 doc2,
    photo_of cfg row1 (fs w) = Some photo1
    /\ document cfg row1 photo1 = Some doc1
    /\ fs w1 !! out_path cfg code = Some doc1
    /\ photo_of cfg row2 (fs w1) = Some photo2
    /\ document cfg row2 photo2 = Some doc2
    /\ fs w2 !! out_path cfg code = Some doc2.
Proof.
  intros H13 H23 Hrow1 Hrow2 Hrun1 Hrun2.
  apply process_row_has_photo in Hrun1; [|done].
  apply process_row_has_photo in Hrun2; [|done].
  apply make_id_files in Hrun1
    as (id1 & photo1 & _ & _ & _ & _ & doc1 & Hid1 & Hphoto1 & _ & _ & _
        & Hdoc1 & _ & _ & Hout1).
  apply make_id_files in Hrun2
    as (id2 & photo2 & _ & _ & _ & _ & doc2 & Hid2 & Hphoto2 & _ & _ & _
        & Hdoc2 & _ & _ & Hout2).
  simplify_eq. by exists photo1, photo2, doc1, doc2.
Qed.

End DocumentClaims.

(** ** Rendering *)

Section RenderingClaims.

Lemma id_front_substitute (template row0 row1 row2 row3 image_str : str) :
  id_front template row0 row1 row2 row3 image_str
  = substitute (front_subs row0 row1 row2 row3 image_str) template.
Proof. reflexivity. Qed.

Lemma id_back_substitute (template id_barcode : str) :
  id_back template id_barcode = substitute (back_subs id_barcode) template.
Proof. reflexivity. Qed.

(** Where nothing collides with the placeholder syntax the chained
    [replace] calls do fill every token: for a front and a back template
    given as token occurrences and text between them, where neither that
    text nor a field of the record contains a token or ends with the
    beginning of one, the front is the template with every NAME, YEAR, ID
    and PHOTO occurrence replaced by its value and the back the template
    with every BARCODE occurrence replaced by the payload. *)
Theorem rendering_fills_every_token
    (front back : list seg) (row0 row1 row2 row3 : str) (photo png : bytes) :
  Forall inert_seg front -> Forall inert_seg back ->
  inert row0 -> inert row1 -> inert row2 -> inert row3 ->
  id_front (flatten front) row0 row1 row2 row3 (b64_str photo)
  = flatten
      (map (fill (front_subs row0 row1 row2 row3 (b64_str photo))) front)
  /\ id_back (flatten back) (b64_str png)
     = flatten (map (fill (back_subs (b64_str png))) back).
Proof.
  intros Hfront Hback Hrow0 Hrow1 Hrow2 Hrow3. split.
  - rewrite id_front_substitute. apply substitute_flatten; [done|].
    repeat constructor; cbn [snd]; try done.
    + apply inert_app; [done|]. by apply inert_app.
    + apply b64_str_inert.
  - by apply (replace_flatten BARCODE).
Qed.

(** On such a template and with such values the chained [replace] calls
    give the same markup in every order. *)
Theorem substitution_order_independent
    (segs : list seg) (subs subs' : list (token * str)) :
  Forall inert_seg segs -> Forall (fun s => inert s.2) subs ->
  NoDup subs.*1 -> subs ≡ₚ subs' ->
  substitute subs' (flatten segs) = substitute subs (flatten segs)
  /\ substitute subs (flatten segs) = flatten (map (fill subs) segs).
Proof.
  intros Hsegs Hsubs Hnodup Hperm.
  rewrite !substitute_flatten; try done.
  - split; [|done]. f_equal. apply map_ext. intros [text|t]; [done|].
    cbn [fill]. by rewrite (value_of_perm subs subs').
  - by rewrite <- Hperm.
Qed.

End RenderingClaims.

(** ** The statements on concrete rows *)

Section Witnesses.
Import Stub.

Lemma run_aborts_at_failing_record_witness :
  process_rows cfg ([header] ++ ada :: [grace]) nothing
  = (Raise (FileNotFoundError (lit "images/2099/p1.jpg")),
     World ∅ [] [OpenRead (lit "images/2099/p1.jpg")])
  /\ main cfg ([header] ++ ada :: [grace]) nothing
     = (Raise (FileNotFoundError (lit "images/2099/p1.jpg")),
        World ∅ [] [OpenRead (lit "images/2099/p1.jpg")]).
Proof.
  apply (run_aborts_at_failing_record cfg [header] ada [grace]
           nothing nothing).
  - reflexivity.
  - reflexivity.
Defined.

Lemma empty_photo_is_skipped_witness :
  exists row0 row1,
    absent !! 0 = Some row0 /\ absent !! 1 = Some row1
    /\ process_row cfg absent w0 =
       (Ok tt,
        World (fs w0)
              (stdout (echo cfg absent w0)
               ++ ["Student " ++ row0 ++ " " ++ row1
                   ++ " does not have a photo. Skipping..."])
              (calls w0)).
Proof. apply (empty_photo_is_skipped cfg absent w0). reflexivity. Defined.

Lemma header_excluded_iff_exact_witness :
  process_row cfg lower_header nothing
  = make_id cfg lower_header (echo cfg lower_header nothing).
Proof.
  apply (proj2 (header_excluded_iff_exact cfg lower_header nothing)).
  - discriminate.
  - reflexivity.
Defined.

Lemma short_row_raises_IndexError_witness :
  process_row cfg short w0 = (Raise IndexError, echo cfg short w0).
Proof.
  apply (short_row_raises_IndexError cfg short w0).
  - discriminate.
  - cbn. lia.
Defined.

Lemma whitespace_photo_is_opened_witness :
  process_row cfg blank w0 = make_id cfg blank (echo cfg blank w0)
  /\ (exists more,
        calls (process_row cfg blank w0).2
        = calls w0 ++ OpenRead (lit "images/2099/  .jpg") :: more)
  /\ (fs w0 !! lit "images/2099/  .jpg" = None ->
      process_row cfg blank w0 =
      (Raise (FileNotFoundError (lit "images/2099/  .jpg")),
       World (fs w0) (stdout (echo cfg blank w0))
             (calls w0 ++ [OpenRead (lit "images/2099/  .jpg")]))).
Proof.
  apply (whitespace_photo_is_opened cfg blank "2099" "  " w0).
  - reflexivity.
  - reflexivity.
  - discriminate.
  - reflexivity.
Defined.

Lemma has_photo_ada : has_photo ada.
Proof. split; discriminate. Defined.

Lemma has_photo_grace : has_photo grace.
Proof. split; discriminate. Defined.

Lemma merged_front_then_back_witness :
  exists row3 fc bc fp bp doc,
    ada !! 3 = Some row3
    /\ fs (process_row cfg ada w0).2 !! front_path cfg row3 = Some fc
    /\ pdf_pages fc = Some fp
    /\ fs (process_row cfg ada w0).2 !! back_path cfg row3 = Some bc
    /\ pdf_pages bc = Some bp
    /\ fs (process_row cfg ada w0).2 !! out_path cfg row3 = Some doc
    /\ doc = pdf_write (fp ++ bp)
    /\ length (fp ++ bp) = length fp + length bp
    /\ ((forall pages, pdf_pages (pdf_write pages) = Some pages) ->
        pdf_pages doc = Some (fp ++ bp)).
Proof.
  apply (merged_front_then_back cfg ada w0 (process_row cfg ada w0).2).
  - exact has_photo_ada.
  - vm_compute. reflexivity.
Defined.

Lemma later_record_overwrites_witness :
  exists photo1 photo2 doc1 doc2,
    photo_of cfg ada (fs w0) = Some photo1
    /\ document cfg ada photo1 = Some doc1
    /\ fs (process_row cfg ada w0).2 !! out_path cfg "S1001" = Some doc1
    /\ photo_of cfg grace (fs (process_row cfg ada w0).2) = Some photo2
    /\ document cfg grace photo2 = Some doc2
    /\ fs (process_row cfg grace (process_row cfg ada w0).2).2
         !! out_path cfg "S1001" = Some doc2.
Proof.
  apply (later_record_overwrites cfg "S1001" ada grace w0).
  - reflexivity.
  - reflexivity.
  - exact has_photo_ada.
  - exact has_photo_grace.
  - vm_compute. reflexivity.
  - vm_compute. reflexivity.
Defined.

Lemma rendering_fills_every_token_witness :
  id_front (flatten front) "Ada" "Lovelace" "2099" "S1001" (b64_str photo1)
  = flatten
      (map (fill (front_subs "Ada" "Lovelace" "2099" "S1001"
                    (b64_str photo1))) front)
  /\ id_back (flatten back) (b64_str photo2)
     = flatten (map (fill (back_subs (b64_str photo2))) back).
Proof.
  apply (rendering_fills_every_token front back); try reflexivity.
  - repeat constructor.
  - repeat constructor.
Defined.

Lemma substitution_order_independent_witness :
  substitute (reverse (front_subs "Ada" "Lovelace" "2099" "S1001" "TWFu"))
    (flatten front)
  = substitute (front_subs "Ada" "Lovelace" "2099" "S1001" "TWFu")
      (flatten front)
  /\ substitute (front_subs "Ada" "Lovelace" "2099" "S1001" "TWFu")
       (flatten front)
     = flatten
         (map (fill (front_subs "Ada" "Lovelace" "2099" "S1001" "TWFu"))
            front).
Proof.
  apply (substitution_order_independent front).
  - repeat constructor.
  - repeat constructor.
  - cbn [fmap list_fmap front_subs fst].
    repeat
      (apply NoDup_cons; split;
       [intros Hin;
        repeat (apply elem_of_cons in Hin as [Hin|Hin]; [discriminate Hin|]);
        by apply elem_of_nil in Hin|]).
    apply NoDup_nil_2.
  - symmetry. apply reverse_Permutation.
Defined.

(** C2. The comment of lines 198 to 202 says that [<!-- NAME -->] becomes
    [row[0] + ' ' + row[1]].  For a student whose first name spells the ID
    token it does not: the later [replace] call for ID rewrites the name
    that was just put in, and the NAME occurrence ends up as the
    identifier, a space and the last name. *)
Lemma token_in_name_is_replaced :
  id_front (flatten [Tok NAME]) "<!-- ID -->" "Lovelace" "2099" "S1001"
    (b64_str photo1)
  = lit "S1001 Lovelace"
  /\ flatten
       (map (fill (front_subs "<!-- ID -->" "Lovelace" "2099" "S1001"
                     (b64_str photo1))) [Tok NAME])
     = lit "<!-- ID --> Lovelace"
  /\ id_front (flatten [Tok NAME]) "<!-- ID -->" "Lovelace" "2099" "S1001"
       (b64_str photo1)
     <> flatten
          (map (fill (front_subs "<!-- ID -->" "Lovelace" "2099" "S1001"
                        (b64_str photo1))) [Tok NAME]).
Proof. split; [reflexivity|]. split; [reflexivity | discriminate]. Qed.

(** C3. The values are not put in as they are, and the order of the
    [replace] calls shows: for a student whose first name spells the YEAR
    token the script, which replaces NAME before YEAR, renders the year in
    place of the first name, where the same calls in the opposite order
    leave the name as it is. *)
Lemma substitution_order_matters :
  id_front "<!-- NAME -->" "<!-- YEAR -->" "Lovelace" "2099" "S1001"
    (b64_str photo1)
  = lit "2099 Lovelace"
  /\ substitute
       (reverse (front_subs "<!-- YEAR -->" "Lovelace" "2099" "S1001"
                   (b64_str photo1)))
       "<!-- NAME -->"
     = lit "<!-- YEAR --> Lovelace"
  /\ id_front "<!-- NAME -->" "<!-- YEAR -->" "Lovelace" "2099" "S1001"
       (b64_str photo1)
     <> substitute
          (reverse (front_subs "<!-- YEAR -->" "Lovelace" "2099" "S1001"
                      (b64_str photo1)))
          "<!-- NAME -->".
Proof. split; [reflexivity|]. split; [reflexivity | discriminate]. Qed.

End Witnesses.

(** * Further properties of the script *)

(** ** Template paths, placeholders and the paths of a record *)

Section PathsAndTemplates.

Lemma joined_is_appended_iff (template_path name : str) :
  Py.startswith name "/" = false ->
  checked_template template_path name = opened_template template_path name
  <-> template_path = [] \/ Py.endswith template_path "/" = true.
Proof.
  intros Hname. unfold checked_template, opened_template, Py.path_join.
  cbn [fold_left]. rewrite path_join2_dir, Hname. unfold dir. split.
  - intros Heq. destruct (decide (template_path = [])) as [|Hne]; [by left|].
    right. rewrite bool_decide_eq_false_2 in Heq by done. cbn [orb] in Heq.
    destruct (Py.endswith template_path "/"); [done|].
    rewrite <- app_assoc in Heq. apply app_inv_head in Heq.
    apply (f_equal length) in Heq. cbn in Heq. lia.
  - intros [-> | ->]; [done|]. by rewrite orb_true_r.
Qed.

(** X1. The templates are tested at [os.path.join(template_path, name)] and
    opened at [template_path + name]: for [front.svg] and for [back.svg]
    the two are the same path exactly when the template path is empty or
    ends with a slash. *)
Theorem template_checked_is_opened_iff (template_path : str) :
  (checked_template template_path "front.svg"
   = opened_template template_path "front.svg"
   <-> template_path = [] \/ Py.endswith template_path "/" = true)
  /\ (checked_template template_path "back.svg"
      = opened_template template_path "back.svg"
      <-> template_path = [] \/ Py.endswith template_path "/" = true).
Proof. split; by apply joined_is_appended_iff. Qed.

(** A text occurs in another one only where a suffix starts with it. *)
Lemma occursb_false (old s : str) :
  old <> [] -> occursb old s = false -> ~ occurs old s.
Proof.
  intros Hold Hb (a & b & ->). revert Hb. induction a as [|c a IH].
  - destruct old as [|o old]; [done|]. cbn [app tails occursb existsb].
    change (o :: old ++ b) with ((o :: old) ++ b).
    by rewrite startswith_app.
  - unfold occursb. cbn [app tails existsb]. intros Hb.
    apply orb_false_elim in Hb as [_ Hb]. by apply IH.
Qed.

Lemma replace_no_occurrence (s old new : str) :
  old <> [] -> ~ occurs old s -> Py.replace s old new = s.
Proof.
  intros Hold Hs. apply replace_absent; [done|].
  intros a b ->. apply Hs. by exists a, b.
Qed.

(** X4. A front template in which none of the four tokens occurs is
    rendered as it is, whatever the record and the photo are, and so is a
    back template without the BARCODE token. *)
Theorem template_without_tokens_unchanged
    (front back row0 row1 row2 row3 image_str id_barcode : str) :
  ~ occurs (token_text NAME) front -> ~ occurs (token_text YEAR) front ->
  ~ occurs (token_text ID) front -> ~ occurs (token_text PHOTO) front ->
  ~ occurs (token_text BARCODE) back ->
  id_front front row0 row1 row2 row3 image_str = front
  /\ id_back back id_barcode = back.
Proof.
  intros Hname Hyear Hid Hphoto Hbarcode. unfold id_front, id_back.
  change (lit "<!-- NAME -->") with (token_text NAME).
  change (lit "<!-- YEAR -->") with (token_text YEAR).
  change (lit "<!-- ID -->") with (token_text ID).
  change (lit "<!-- PHOTO -->") with (token_text PHOTO).
  change (lit "<!-- BARCODE -->") with (token_text BARCODE).
  rewrite (replace_no_occurrence front) by done.
  rewrite (replace_no_occurrence front) by done.
  rewrite (replace_no_occurrence front) by done.
  by rewrite !replace_no_occurrence.
Qed.

(** X12. The text of the three paths of a record, as [os.path.join]
    builds it from the output path and the identifier: for an identifier
    that does not start with a slash the output path, a slash unless it is
    empty or ends with one, and then [tmp/<id>-front.pdf],
    [tmp/<id>-back.pdf] and [<id>.pdf]; for an identifier that starts with
    a slash the output path is dropped and the paths are the identifier
    followed by [-front.pdf], [-back.pdf] and [.pdf].  In both cases the
    three texts differ from each other.  This is about the text only: an
    identifier with [..] or a slash in it names a file elsewhere. *)
Theorem record_paths_shape (cfg : config) (row3 : str) :
  (if Py.startswith row3 "/"
   then front_path cfg row3 = row3 ++ "-front.pdf"
        /\ back_path cfg row3 = row3 ++ "-back.pdf"
        /\ out_path cfg row3 = row3 ++ ".pdf"
   else front_path cfg row3
        = dir (output_path cfg) ++ "tmp/" ++ row3 ++ "-front.pdf"
        /\ back_path cfg row3
           = dir (output_path cfg) ++ "tmp/" ++ row3 ++ "-back.pdf"
        /\ out_path cfg row3 = dir (output_path cfg) ++ row3 ++ ".pdf")
  /\ front_path cfg row3 <> back_path cfg row3
  /\ out_path cfg row3 <> front_path cfg row3
  /\ out_path cfg row3 <> back_path cfg row3.
Proof.
  split.
  - unfold front_path, back_path, out_path, Py.path_join. cbn [fold_left].
    rewrite !(path_join2_dir _ (row3 ++ _)).
    rewrite (startswith_slash_app row3 "-front.pdf" ".pdf") by done.
    rewrite (startswith_slash_app row3 "-back.pdf" ".pdf") by done.
    rewrite (startswith_slash_app row3 ".pdf" "") by done.
    rewrite app_nil_r. destruct (Py.startswith row3 "/"); [done|].
    rewrite (path_join2_dir _ "tmp").
    change (Py.startswith (lit "tmp") (lit "/")) with false. cbn match.
    rewrite dir_tmp. by rewrite <- !app_assoc.
  - split; [apply front_ne_back|].
    split; apply out_ne_tmp; try done; cbn; lia.
Qed.

End PathsAndTemplates.

(** ** The payloads *)

Section Payloads.

Lemma sextet_eq (n m : N) :
  (n mod 64 = m mod 64 -> n / 64 = m / 64 -> n = m)%N.
Proof.
  intros Hmod Hdiv.
  rewrite (N.div_mod' n 64), (N.div_mod' m 64). by rewrite Hmod, Hdiv.
Qed.

(** A number below [2^24] is given by its four sextets. *)
Lemma sextets_eq (n m : N) :
  (n < 16777216 -> m < 16777216 ->
   (n / 262144) mod 64 = (m / 262144) mod 64 ->
   (n / 4096) mod 64 = (m / 4096) mod 64 ->
   (n / 64) mod 64 = (m / 64) mod 64 ->
   n mod 64 = m mod 64 ->
   n = m)%N.
Proof.
  intros Hn Hm H3 H2 H1 H0.
  apply sextet_eq; [done|]. apply sextet_eq; [done|].
  rewrite !N.Div0.div_div. change (64 * 64)%N with 4096%N.
  apply sextet_eq; [done|].
  rewrite !N.Div0.div_div. change (4096 * 64)%N with 262144%N.
  apply sextet_eq; [done|].
  rewrite !N.Div0.div_div. change (262144 * 64)%N with 16777216%N.
  by rewrite !N.div_small.
Qed.

Lemma b64_alphabet_NoDup : NoDup (Byte.to_N <$> Py.b64_alphabet).
Proof. apply (bool_decide_unpack _). vm_compute. exact I. Qed.

Lemma b64_digit_lookup n :
  Py.b64_alphabet !! N.to_nat (n mod 64) = Some (Py.b64_digit n).
Proof.
  unfold Py.b64_digit.
  destruct (nth_lookup_or_length Py.b64_alphabet (N.to_nat (n mod 64)) Py.b64_pad)
    as [Hin|Hlen]; [done|].
  change (length Py.b64_alphabet) with 64 in Hlen.
  pose proof (N.mod_upper_bound n 64). lia.
Qed.

(** Two sextets with the same base64 character are equal. *)
Lemma b64_digit_eq n m :
  Py.b64_digit n = Py.b64_digit m -> (n mod 64 = m mod 64)%N.
Proof.
  intros Heq. pose proof (b64_digit_lookup n) as Hn.
  pose proof (b64_digit_lookup m) as Hm. rewrite Heq in Hn.
  apply (f_equal (fmap Byte.to_N)) in Hn, Hm.
  rewrite <- !list_lookup_fmap in Hn, Hm.
  pose proof (NoDup_lookup _ _ _ _ b64_alphabet_NoDup Hn Hm). lia.
Qed.

(** The padding character is not a character of the alphabet. *)
Lemma b64_digit_not_pad n : Py.b64_digit n <> Py.b64_pad.
Proof.
  intros Heq. pose proof (b64_digit_lookup n) as Hn. rewrite Heq in Hn.
  apply list_elem_of_lookup_2, (list_elem_of_fmap_2 Byte.to_N) in Hn.
  revert Hn. apply (bool_decide_unpack _). vm_compute. exact I.
Qed.

Lemma to_N_inj (a b : byte) : Byte.to_N a = Byte.to_N b -> a = b.
Proof.
  intros Heq. apply (f_equal Byte.of_N) in Heq.
  rewrite !Byte.of_to_N in Heq. by injection Heq.
Qed.

Lemma to_N_lt (a : byte) : (Byte.to_N a < 256)%N.
Proof. pose proof (Byte.to_N_bounded a). lia. Qed.

(** The four characters of a group give back its 24 bits; so do three
    characters when the last sextet is zero, and two when the last two
    are. *)
Lemma b64_group_eq (n m : N) :
  (n < 16777216)%N -> (m < 16777216)%N ->
  Py.b64_digit (n / 262144) = Py.b64_digit (m / 262144) ->
  Py.b64_digit (n / 4096) = Py.b64_digit (m / 4096) ->
  Py.b64_digit (n / 64) = Py.b64_digit (m / 64) ->
  Py.b64_digit n = Py.b64_digit m ->
  n = m.
Proof.
  intros Hn Hm H3%b64_digit_eq H2%b64_digit_eq H1%b64_digit_eq H0%b64_digit_eq.
  by apply sextets_eq.
Qed.

Lemma b64_group_eq_2 (n m : N) :
  (n < 16777216)%N -> (m < 16777216)%N ->
  (n mod 64 = 0)%N -> (m mod 64 = 0)%N ->
  Py.b64_digit (n / 262144) = Py.b64_digit (m / 262144) ->
  Py.b64_digit (n / 4096) = Py.b64_digit (m / 4096) ->
  Py.b64_digit (n / 64) = Py.b64_digit (m / 64) ->
  n = m.
Proof.
  intros Hn Hm Hn0 Hm0 H3%b64_digit_eq H2%b64_digit_eq H1%b64_digit_eq.
  apply sextets_eq; try done. by rewrite Hn0, Hm0.
Qed.

Lemma b64_group_eq_1 (n m : N) :
  (n < 16777216)%N -> (m < 16777216)%N ->
  (n mod 4096 = 0)%N -> (m mod 4096 = 0)%N ->
  Py.b64_digit (n / 262144) = Py.b64_digit (m / 262144) ->
  Py.b64_digit (n / 4096) = Py.b64_digit (m / 4096) ->
  n = m.
Proof.
  intros Hn Hm Hn0 Hm0 H3%b64_digit_eq H2%b64_digit_eq.
  rewrite (N.div_mod' n 4096), (N.div_mod' m 4096), Hn0, Hm0.
  f_equal. f_equal. apply sextet_eq; [done|].
  rewrite !N.Div0.div_div. change (4096 * 64)%N with 262144%N.
  apply sextet_eq; [done|].
  rewrite !N.Div0.div_div. change (262144 * 64)%N with 16777216%N.
  by rewrite !N.div_small.
Qed.

Ltac pad_clash :=
  match goal with
  | H : Py.b64_digit _ = Py.b64_pad |- _ => destruct (b64_digit_not_pad _ H)
  | H : Py.b64_pad = Py.b64_digit _ |- _ =>
      destruct (b64_digit_not_pad _ (eq_sym H))
  end.

(** [b64encode] loses nothing: different contents have different
    encodings. *)
Lemma b64encode_inj (a b : bytes) :
  Py.b64encode a = Py.b64encode b -> a = b.
Proof.
  revert b.
  induction a as [|a0|a0 a1|a0 a1 a2 l IH] using triples_ind;
    intros [|b0 [|b1 [|b2 r]]]; cbn [Py.b64encode app]; intros Heq;
    try discriminate Heq; try reflexivity;
    injection Heq; intros; try pad_clash.
  - pose proof (to_N_lt a0). pose proof (to_N_lt b0).
    assert (Byte.to_N a0 * 65536 = Byte.to_N b0 * 65536)%N as Hn.
    { apply b64_group_eq_1; try done; try lia.
      - replace (Byte.to_N a0 * 65536)%N with (Byte.to_N a0 * 16 * 4096)%N by lia.
        apply N.Div0.mod_mul.
      - replace (Byte.to_N b0 * 65536)%N with (Byte.to_N b0 * 16 * 4096)%N by lia.
        apply N.Div0.mod_mul. }
    f_equal. apply to_N_inj. lia.
  - pose proof (to_N_lt a0). pose proof (to_N_lt b0).
    pose proof (to_N_lt a1). pose proof (to_N_lt b1).
    assert (Byte.to_N a0 * 65536 + Byte.to_N a1 * 256
            = Byte.to_N b0 * 65536 + Byte.to_N b1 * 256)%N as Hn.
    { apply b64_group_eq_2; try done; try lia.
      - replace (Byte.to_N a0 * 65536 + Byte.to_N a1 * 256)%N
          with ((Byte.to_N a0 * 1024 + Byte.to_N a1 * 4) * 64)%N by lia.
        apply N.Div0.mod_mul.
      - replace (Byte.to_N b0 * 65536 + Byte.to_N b1 * 256)%N
          with ((Byte.to_N b0 * 1024 + Byte.to_N b1 * 4) * 64)%N by lia.
        apply N.Div0.mod_mul. }
    assert (Byte.to_N a0 = Byte.to_N b0 /\ Byte.to_N a1 = Byte.to_N b1)
      as [E0 E1] by lia.
    apply to_N_inj in E0, E1. by subst.
  - pose proof (to_N_lt a0). pose proof (to_N_lt b0).
    pose proof (to_N_lt a1). pose proof (to_N_lt b1).
    pose proof (to_N_lt a2). pose proof (to_N_lt b2).
    assert (Byte.to_N a0 * 65536 + Byte.to_N a1 * 256 + Byte.to_N a2
            = Byte.to_N b0 * 65536 + Byte.to_N b1 * 256 + Byte.to_N b2)%N as Hn.
    { apply b64_group_eq; try done; lia. }
    assert (Byte.to_N a0 = Byte.to_N b0 /\ Byte.to_N a1 = Byte.to_N b1
            /\ Byte.to_N a2 = Byte.to_N b2) as (E0 & E1 & E2) by lia.
    apply to_N_inj in E0, E1, E2. subst. f_equal. f_equal. f_equal.
    by apply IH.
Qed.

Lemma b64encode_length (bs : bytes) :
  length (Py.b64encode bs) = 4 * ((length bs + 2) / 3).
Proof.
  induction bs as [|a|a b|a b c l IH] using triples_ind; try reflexivity.
  cbn [Py.b64encode app length]. rewrite IH.
  replace (S (S (S (length l))) + 2) with (1 * 3 + (length l + 2)) by lia.
  rewrite Nat.div_add_l by lia. lia.
Qed.

(** X2. The photo and barcode payloads, [str(base64.b64encode(...))[2:-1]],
    are the base64 text itself: the slice takes away exactly the [b'] and
    the ['] of [repr]; the payload has four characters for every three
    bytes of content, rounded up, and none of them is a quote, a backslash
    or a [<]. *)
Theorem payload_is_base64_text (content : bytes) :
  b64_str content = map ascii_of_byte (Py.b64encode content)
  /\ length (b64_str content) = 4 * ((length content + 2) / 3)
  /\ Forall (fun c => c <> "'"%char /\ c <> "\"%char /\ c <> "<"%char)
            (b64_str content).
Proof.
  split; [apply b64_str_text|]. split.
  - by rewrite b64_str_text, length_map, b64encode_length.
  - rewrite b64_str_text. apply Forall_map.
    eapply Forall_impl; [apply b64encode_safe|]. intros b Hb. cbn beta.
    unfold b64_safe in Hb. apply andb_prop in Hb as [Hb Hlt].
    apply andb_prop in Hb as [Hrepr Hquote].
    apply negb_true_iff, Ascii.eqb_neq in Hlt, Hquote.
    split; [done|]. split; [|done]. intros Hback.
    apply bool_decide_eq_true in Hrepr. unfold Py.repr_byte in Hrepr.
    rewrite Hback, Ascii.eqb_refl, orb_true_r in Hrepr. discriminate Hrepr.
Qed.

(** X3. The payload determines the content: two files have the same
    payload only when they are the same bytes. *)
Theorem payload_determines_content (content1 content2 : bytes) :
  b64_str content1 = b64_str content2 <-> content1 = content2.
Proof.
  split; [|by intros ->]. rewrite !b64_str_text. intros Heq.
  apply b64encode_inj.
  apply (f_equal (map byte_of_ascii)) in Heq.
  rewrite !map_map in Heq.
  rewrite !(map_ext (fun b => byte_of_ascii (ascii_of_byte b)) id), !map_id
    in Heq by apply byte_of_ascii_of_byte.
  exact Heq.
Qed.

End Payloads.

(** ** What a run writes *)

Section WritesFacts.

Lemma writes_keeps_fs {A} (P : str -> Prop) (m : M A) :
  keeps_fs m -> writes P m.
Proof. intros Hm w r w' Hrun p. left. by rewrite (Hm _ _ _ Hrun). Qed.

Lemma writes_mono {A} (P Q : str -> Prop) (m : M A) :
  (forall p, P p -> Q p) -> writes P m -> writes Q m.
Proof.
  intros HPQ Hm w r w' Hrun p.
  destruct (Hm _ _ _ Hrun p) as [Heq | [Hp Hsome]]; [by left | right; auto].
Qed.

Lemma writes_bind {A B} (P : str -> Prop) (m : M A) (k : A -> M B) :
  writes P m -> (forall a, writes P (k a)) -> writes P (bind m k).
Proof.
  intros Hm Hk w r w' Hrun p. unfold bind in Hrun.
  destruct (m w) as [[a|e] w1] eqn:E.
  - destruct (Hk _ _ _ _ Hrun p) as [Heq | [Hp Hsome]]; [|by right].
    rewrite Heq. apply (Hm _ _ _ E).
  - injection Hrun as <- <-. apply (Hm _ _ _ E).
Qed.

(** Past [row[i]], the field is the one at index [i]. *)
Lemma writes_index_bind {B} (P : str -> Prop) row i (k : str -> M B) :
  (forall field, row !! i = Some field -> writes P (k field)) ->
  writes P (bind (index row i) k).
Proof.
  intros Hk w r w' Hrun p. unfold bind, index in Hrun.
  destruct (row !! i) as [field|] eqn:E.
  - by apply (Hk field eq_refl _ _ _ Hrun).
  - unfold raise in Hrun. injection Hrun as <- <-. by left.
Qed.

Lemma writes_write_file (P : str -> Prop) path content :
  P path -> writes P (write_file path content).
Proof.
  intros Hpath w r w' [= <- <-] p. cbn [fs].
  destruct (decide (path = p)) as [<-|Hne].
  - right. by rewrite lookup_insert_eq.
  - left. by rewrite lookup_insert_ne.
Qed.

Lemma writes_create (P : str -> Prop) error path content :
  P path -> writes P (create error path content).
Proof.
  intros Hpath w r w'. unfold create.
  destruct (error _ _); [|by apply writes_write_file].
  intros [= <- <-] p. by left.
Qed.

End WritesFacts.

Section ScriptWrites.
Context `{Libraries}.
Variable cfg : config.

Lemma keeps_fs_merger_append merger path : keeps_fs (merger_append merger path).
Proof. unfold merger_append. keeps_fs. Qed.

Lemma writes_render_pdf (P : str -> Prop) markup write_to :
  P write_to -> writes P (render_pdf markup write_to).
Proof.
  intros Hpath. unfold render_pdf.
  apply writes_bind; [apply writes_keeps_fs, keeps_fs_log|]. intros _.
  apply writes_bind; [apply writes_keeps_fs; by intros w r w' [= <- <-]|].
  intros moment.
  destruct (svg2pdf _ _ _); [by apply writes_create|].
  destruct (svg2pdf_partial _ _ _); [|apply writes_keeps_fs, keeps_fs_raise].
  apply writes_bind; [by apply writes_create|]. intros _.
  apply writes_keeps_fs, keeps_fs_raise.
Qed.

Lemma writes_open_wb (P : str -> Prop) path content :
  P path -> writes P (open_wb path content).
Proof.
  intros Hpath. unfold open_wb.
  apply writes_bind; [apply writes_keeps_fs, keeps_fs_log|]. intros _.
  by apply writes_create.
Qed.

Lemma writes_make_id (row : list str) :
  writes (record_files cfg row) (make_id cfg row).
Proof.
  unfold make_id.
  apply writes_bind; [apply writes_keeps_fs, keeps_fs_index|]. intros row2.
  apply writes_bind; [apply writes_keeps_fs, keeps_fs_index|]. intros row4.
  apply writes_bind; [apply writes_keeps_fs, keeps_fs_open_rb|]. intros photo.
  cbv zeta. apply writes_index_bind. intros row3 H3.
  assert (forall p,
    p = front_path cfg row3 \/ p = back_path cfg row3 \/ p = out_path cfg row3 ->
    record_files cfg row p) as Hfiles by (intros p Hp; by exists row3).
  apply writes_bind; [apply writes_keeps_fs, keeps_fs_id_barcode|].
  intros payload.
  apply writes_bind; [apply writes_keeps_fs; keeps_fs|]. intros _.
  apply writes_bind; [apply writes_keeps_fs, keeps_fs_index|]. intros row0.
  apply writes_bind; [apply writes_keeps_fs, keeps_fs_index|]. intros row1.
  apply writes_bind; [apply writes_keeps_fs; keeps_fs|]. intros _.
  apply writes_bind; [apply writes_render_pdf, Hfiles; by left|]. intros _.
  apply writes_bind; [apply writes_render_pdf, Hfiles; by right; left|].
  intros _.
  apply writes_bind; [apply writes_keeps_fs, keeps_fs_merger_append|].
  intros merger1.
  apply writes_bind; [apply writes_keeps_fs, keeps_fs_merger_append|].
  intros merger2. apply writes_open_wb, Hfiles. by right; right.
Qed.

Lemma writes_process_row (row : list str) :
  writes (record_files cfg row) (process_row cfg row).
Proof.
  unfold process_row.
  apply writes_bind; [apply writes_keeps_fs; keeps_fs|]. intros _.
  destruct (row_eqb row header); [apply writes_keeps_fs, keeps_fs_ret|].
  apply writes_bind; [apply writes_keeps_fs, keeps_fs_index|]. intros row4.
  case_bool_decide; [apply writes_keeps_fs; keeps_fs|].
  apply writes_make_id.
Qed.

Lemma writes_process_rows (data : list (list str)) :
  writes (fun p => exists row, row ∈ data /\ record_files cfg row p)
         (process_rows cfg data).
Proof.
  induction data as [|row data IH]; [apply writes_keeps_fs, keeps_fs_ret|].
  cbn [process_rows]. apply writes_bind.
  - eapply writes_mono; [|apply writes_process_row].
    intros p Hp. exists row. split; [by left | done].
  - intros _. eapply writes_mono; [|apply IH].
    intros p (row' & Hin & Hp). exists row'. split; [by right | done].
Qed.

(** X5. Whatever a run does and however it ends, it removes no file, and
    the only files it changes are the two intermediate documents and the
    merged document of the identifiers of its rows: every other path holds
    what it held before. *)
Theorem run_writes_only_record_files (data : list (list str)) w r w' :
  main cfg data w = (r, w') ->
  (forall p, is_Some (fs w !! p) -> is_Some (fs w' !! p))
  /\ (forall p,
        (forall row, row ∈ data -> ~ record_files cfg row p) ->
        fs w' !! p = fs w !! p).
Proof.
  intros Hrun.
  assert (writes (fun p => exists row, row ∈ data /\ record_files cfg row p)
            (main cfg data)) as Hmain.
  { unfold main. apply writes_bind; [apply writes_process_rows|].
    intros _. apply writes_keeps_fs, keeps_fs_print. }
  split; intros p Hp.
  - destruct (Hmain _ _ _ Hrun p) as [Heq | [_ Hsome]]; [|done].
    by rewrite Heq.
  - destruct (Hmain _ _ _ Hrun p) as [Heq | [(row & Hin & Hfile) _]]; [done|].
    by destruct (Hp row Hin).
Qed.

End ScriptWrites.

(** ** A record step by step: the calls it makes and where it can fail *)

Section ScriptSteps.
Context `{Libraries}.
Variable cfg : config.

Lemma echo_quiet (row : list str) w : debug cfg = false -> echo cfg row w = w.
Proof. intros Hdebug. unfold echo. rewrite Hdebug, app_nil_r. by destruct w. Qed.

(** X13. A record that is processed without an exception makes eight
    calls to the outside, in this order: it opens the photo, has the
    barcode drawn and rasterized, has the front and then the back written
    as PDF, opens the two intermediate documents and opens the output
    document for writing.  Outside debug mode it prints nothing. *)
Theorem processed_record_calls (row : list str) w w' :
  has_photo row -> process_row cfg row w = (Ok tt, w') ->
  exists row0 row1 row2 row3 row4 photo png,
    row !! 0 = Some row0 /\ row !! 1 = Some row1 /\ row !! 2 = Some row2
    /\ row !! 3 = Some row3 /\ row !! 4 = Some row4
    /\ fs w !! photo_path cfg row2 row4 = Some photo
    /\ calls w' = calls w ++ record_calls cfg row2 row3 row4
    /\ stdout w'
       = stdout (echo cfg row w)
         ++ debug_lines cfg row0 row1 row2 row3 photo png
    /\ (debug cfg = false -> stdout w' = stdout w).
Proof.
  intros Hrow Hrun. apply process_row_has_photo in Hrun; [|done].
  apply make_id_ok in Hrun
    as (row0 & row1 & row2 & row3 & row4 & photo & png & fc & bc & fp & bp
        & H0 & H1 & H2 & H3 & H4 & Hphoto & _ & _ & _ & _ & ->).
  exists row0, row1, row2, row3, row4, photo, png. cbn [fs stdout calls].
  repeat split; try done. intros Hdebug.
  unfold debug_lines, echo. cbn [stdout]. by rewrite Hdebug, !app_nil_r.
Qed.

Lemma open_rb_Some path content w :
  fs w !! path = Some content ->
  open_rb path w
  = (Ok content, World (fs w) (stdout w) (calls w ++ [OpenRead path])).
Proof. intros Hsome. unfold open_rb, bind, log. cbn [fs]. by rewrite Hsome. Qed.

Lemma id_barcode_Ok code svg png w :
  code128_render code = Some svg -> svg2png svg 10 = Some png ->
  id_barcode code w
  = (Ok (b64_str png),
     World (fs w) (stdout w) (calls w ++ [Code128 code; Svg2Png])).
Proof.
  intros Hsvg Hpng. unfold id_barcode, bind, log, ret. rewrite Hsvg.
  cbn [fs stdout calls]. by rewrite Hpng, <- app_assoc.
Qed.

Lemma render_pdf_Ok markup write_to pdf w :
  svg2pdf (Py.encode_utf8 markup) 323 204 = Some pdf ->
  svg2pdf_create (fs w) write_to = None ->
  render_pdf markup write_to w
  = (Ok tt,
     World (<[write_to := pdf_stamp (length (calls w) + 1) pdf]> (fs w))
           (stdout w) (calls w ++ [Svg2Pdf write_to])).
Proof.
  intros Hpdf Hnone. unfold render_pdf, now, create, write_file, bind, log.
  rewrite Hpdf. cbn [fs stdout calls]. rewrite Hnone, length_app.
  by cbn [length].
Qed.

(** A markup cairosvg cannot draw: the call raises, and the file at
    [write_to] is as it was or holds what cairo left in it. *)
Lemma render_pdf_fails markup write_to w :
  svg2pdf (Py.encode_utf8 markup) 323 204 = None ->
  exists e files,
    render_pdf markup write_to w
    = (Raise e, World files (stdout w) (calls w ++ [Svg2Pdf write_to]))
    /\ (e = CairoError \/ svg2pdf_create (fs w) write_to = Some e)
    /\ (files = fs w \/ exists rest, files = <[write_to := rest]> (fs w)).
Proof.
  intros Hpdf.
  unfold render_pdf, now, create, write_file, bind, log, raise.
  rewrite Hpdf.
  destruct (svg2pdf_partial _ _ _) as [rest|]; cbn [fs stdout calls];
    [|by eauto 10].
  destruct (svg2pdf_create _ _) as [e|] eqn:Hcreate; by eauto 10.
Qed.



(** X7. A record whose front was written as PDF and whose back cairosvg
    cannot draw ends with an exception, that of cairosvg or the one for
    a back file that cannot be created; the intermediate front document
    stays where it was written, no output document is written, and no
    file but the two intermediate ones has changed. *)
Theorem back_failure_leaves_front (row : list str) row0 row1 row2 row3 row4
    photo svg png fc w :
  row <> header ->
  row !! 0 = Some row0 -> row !! 1 = Some row1 -> row !! 2 = Some row2 ->
  row !! 3 = Some row3 -> row !! 4 = Some row4 -> row4 <> [] ->
  fs w !! photo_path cfg row2 row4 = Some photo ->
  code128_render row3 = Some svg -> svg2png svg 10 = Some png ->
  front_pdf cfg row0 row1 row2 row3 photo = Some fc ->
  svg2pdf_create (fs w) (front_path cfg row3) = None ->
  svg2pdf (Py.encode_utf8 (id_back (template_back cfg) (b64_str png))) 323 204
  = None ->
  exists e,
    (process_row cfg row w).1 = Raise e
    /\ (e = CairoError
        \/ svg2pdf_create
             (<[front_path cfg row3 := pdf_stamp (length (calls w) + 4) fc]>
                (fs w))
             (back_path cfg row3) = Some e)
    /\ fs (process_row cfg row w).2 !! front_path cfg row3
       = Some (pdf_stamp (length (calls w) + 4) fc)
    /\ fs (process_row cfg row w).2 !! out_path cfg row3
       = fs w !! out_path cfg row3
    /\ (forall p, p <> front_path cfg row3 -> p <> back_path cfg row3 ->
        fs (process_row cfg row w).2 !! p = fs w !! p)
    /\ calls (process_row cfg row w).2
       = calls w
         ++ [OpenRead (photo_path cfg row2 row4); Code128 row3; Svg2Png;
             Svg2Pdf (front_path cfg row3); Svg2Pdf (back_path cfg row3)].
Proof.
  intros Hne H0 H1 H2 H3 H4 Hphoto4 Hphoto Hsvg Hpng Hfc Hcreate Hbc.
  pose proof (front_ne_back (output_path cfg) row3) as Hfb.
  fold (front_path cfg row3) (back_path cfg row3) in Hfb.
  assert (out_path cfg row3 <> front_path cfg row3) as Hof
    by (by apply out_ne_tmp; [|cbn; lia]).
  assert (out_path cfg row3 <> back_path cfg row3) as Hob
    by (by apply out_ne_tmp; [|cbn; lia]).
  rewrite (process_row_data cfg row row4) by done.
  set (moment := length (calls w) + 4) in *.
  set (files := <[front_path cfg row3 := pdf_stamp moment fc]> (fs w)) in *.
  set (log5 := calls w
         ++ [OpenRead (photo_path cfg row2 row4); Code128 row3; Svg2Png;
             Svg2Pdf (front_path cfg row3); Svg2Pdf (back_path cfg row3)]).
  assert (exists e files',
    make_id cfg row (echo cfg row w)
    = (Raise e,
       World files'
             (stdout (echo cfg row w)
              ++ debug_lines cfg row0 row1 row2 row3 photo png) log5)
    /\ (e = CairoError \/ svg2pdf_create files (back_path cfg row3) = Some e)
    /\ (files' = files
        \/ exists rest, files' = <[back_path cfg row3 := rest]> files))
    as (e & files' & -> & He & Hfiles).
  { unfold make_id.
    rewrite (bind_Ok _ _ _ _ _ (index_Some _ _ _ _ H2)).
    rewrite (bind_Ok _ _ _ _ _ (index_Some _ _ _ _ H4)).
    rewrite (bind_Ok _ _ _ _ _ (open_rb_Some _ _ (echo cfg row w) Hphoto)).
    cbv zeta.
    rewrite (bind_Ok _ _ _ _ _ (index_Some _ _ _ _ H3)).
    rewrite (bind_Ok _ _ _ _ _ (id_barcode_Ok _ _ _ _ Hsvg Hpng)).
    rewrite (bind_Ok _ _ _ _ _ (debug_prints _ _ _ _ (prints2 _ _))).
    rewrite (bind_Ok _ _ _ _ _ (index_Some _ _ _ _ H0)).
    rewrite (bind_Ok _ _ _ _ _ (index_Some _ _ _ _ H1)).
    rewrite (bind_Ok _ _ _ _ _ (debug_prints _ _ _ _ (prints4 _ _ _ _))).
    match goal with
    | |- context [bind (render_pdf ?markup ?path) ?k ?w1] =>
        rewrite (bind_Ok _ _ _ _ _ (render_pdf_Ok markup path fc w1 Hfc Hcreate))
    end.
    cbn [fs stdout calls].
    match goal with
    | |- context [bind (render_pdf ?markup ?path) ?k ?w1] =>
        destruct (render_pdf_fails markup path w1 Hbc)
          as (e & files' & Hrun & He & Hfiles);
        rewrite (bind_Raise _ _ _ _ _ Hrun)
    end.
    cbn [fs stdout calls] in *. exists e, files'.
    change (calls (echo cfg row w)) with (calls w) in *.
    change (fs (echo cfg row w)) with (fs w) in *.
    fold (front_path cfg row3) (back_path cfg row3) in *.
    replace (length ((calls w ++ [OpenRead (photo_path cfg row2 row4)])
                     ++ [Code128 row3; Svg2Png]) + 1)
      with moment in *
      by (rewrite !length_app; cbn [length]; unfold moment; lia).
    split; [|by split].
    f_equal. f_equal.
    - unfold debug_lines. rewrite <- app_assoc. by destruct (debug cfg).
    - unfold log5. by rewrite <- !app_assoc. }
  exists e. cbn [fst snd fs calls]. split; [done|]. split; [done|].
  destruct Hfiles as [-> | [rest ->]]; unfold files.
  - split; [by rewrite lookup_insert_eq|].
    split; [by rewrite lookup_insert_ne by done|].
    split; [|done]. intros p Hpf _. by rewrite lookup_insert_ne.
  - split; [by rewrite lookup_insert_ne, lookup_insert_eq by done|].
    split; [by rewrite !lookup_insert_ne by done|].
    split; [|done]. intros p Hpf Hpb. by rewrite !lookup_insert_ne.
Qed.

End ScriptSteps.

(** ** The standard output, header rows and trailing columns *)

Section QuietFacts.

Lemma quiet_ret {A} (a : A) : quiet (ret a).
Proof. by intros w r w' [= <- <-]. Qed.

Lemma quiet_raise {A} e : quiet (@raise A e).
Proof. by intros w r w' [= <- <-]. Qed.

Lemma quiet_bind {A B} (m : M A) (k : A -> M B) :
  quiet m -> (forall a, quiet (k a)) -> quiet (bind m k).
Proof.
  intros Hm Hk w r w'. unfold bind.
  destruct (m w) as [[a|e] w1] eqn:E; intros Hr.
  - etrans; [by eapply Hk | by eapply Hm].
  - injection Hr as <- <-. by eapply Hm.
Qed.

Lemma quiet_log c : quiet (log c).
Proof. by intros w r w' [= <- <-]. Qed.

Lemma quiet_write_file path content : quiet (write_file path content).
Proof. by intros w r w' [= <- <-]. Qed.

Lemma quiet_index row i : quiet (index row i).
Proof.
  unfold index. destruct (row !! i); [apply quiet_ret | apply quiet_raise].
Qed.

Lemma quiet_open_rb path : quiet (open_rb path).
Proof.
  apply quiet_bind; [apply quiet_log|]. intros _ w r w'.
  destruct (fs w !! path); by intros [= <- <-].
Qed.

Lemma quiet_when_false m : quiet (when false m).
Proof. apply quiet_ret. Qed.

Lemma quiet_now : quiet now.
Proof. by intros w r w' [= <- <-]. Qed.

Lemma quiet_create error path content : quiet (create error path content).
Proof.
  intros w r w'. unfold create, write_file.
  destruct (error _ _); by intros [= <- <-].
Qed.

End QuietFacts.

Create HintDb quiet.
#[export] Hint Resolve quiet_ret quiet_raise quiet_log quiet_write_file
  quiet_index quiet_open_rb quiet_when_false quiet_now quiet_create : quiet.

Ltac quiet :=
  repeat first
    [ progress auto with quiet
    | apply quiet_bind; [|intros ?]
    | match goal with |- quiet (match ?x with _ => _ end) => destruct x end ].

Section ScriptOutput.
Context `{Libraries}.
Variable cfg : config.
Hypothesis no_debug : debug cfg = false.





(** X9. Outside debug mode the header is dropped wherever it stands, not
    only in the first row: a run over the rows without the header rows
    ends as the run over all rows does, in the same world. *)
Theorem header_rows_dropped_anywhere (data : list (list str)) w :
  main cfg (filter (fun row => row <> header) data) w = main cfg data w.
Proof.
  unfold main.
  assert (forall w0,
    process_rows cfg (filter (fun row => row <> header) data) w0
    = process_rows cfg data w0) as Hrows.
  { induction data as [|row data IH]; intros w0; [done|].
    destruct (decide (row = header)) as [->|Hne].
    - rewrite filter_cons_False by naive_solver. cbn [process_rows].
      rewrite (bind_Ok _ _ _ _ _ (process_row_header cfg w0)).
      by rewrite echo_quiet.
    - rewrite filter_cons_True by done. cbn [process_rows]. unfold bind.
      destruct (process_row cfg row w0) as [[[]|e] w1]; [apply IH | done]. }
  unfold bind. by rewrite Hrows.
Qed.

(** X11. Outside debug mode the fields after the fifth play no part: a
    row with more than five fields is processed as its first five fields
    are, unless these five are the header, which on its own is dropped. *)
Theorem trailing_fields_ignored (row : list str) w :
  row <> header -> take 5 row <> header ->
  process_row cfg row w = process_row cfg (take 5 row) w.
Proof.
  intros Hne Hne5. rewrite !process_row_not_header by done.
  rewrite !echo_quiet by done.
  unfold make_id, index.
  by rewrite !lookup_take_lt by lia.
Qed.

End ScriptOutput.

(** ** The debug flag *)

Section AgreeFacts.

Lemma same_disk_refl w : same_disk w w.
Proof. by split. Qed.

Lemma agree_ret {A} (a : A) : agree (ret a) (ret a).
Proof. by intros w1 w2 Hw. Qed.

Lemma agree_raise {A} e : agree (@raise A e) (@raise A e).
Proof. by intros w1 w2 Hw. Qed.

Lemma agree_bind {A B} (m1 m2 : M A) (k1 k2 : A -> M B) :
  agree m1 m2 -> (forall a, agree (k1 a) (k2 a)) ->
  agree (bind m1 k1) (bind m2 k2).
Proof.
  intros Hm Hk w1 w2 Hw. unfold bind.
  destruct (Hm w1 w2 Hw) as [Hres Hdisk].
  destruct (m1 w1) as [[a1|e1] w1'], (m2 w2) as [[a2|e2] w2'];
    cbn [fst snd] in *; simplify_eq; [by apply Hk | done].
Qed.

(** What is printed does not matter. *)
Lemma agree_print line1 line2 : agree (print line1) (print line2).
Proof. by intros w1 w2 Hw. Qed.

Lemma agree_log c : agree (log c) (log c).
Proof. intros w1 w2 [Hfs Hcalls]. repeat split; cbn; congruence. Qed.

Lemma agree_write_file path content :
  agree (write_file path content) (write_file path content).
Proof. intros w1 w2 [Hfs Hcalls]. repeat split; cbn; congruence. Qed.

Lemma agree_index row i : agree (index row i) (index row i).
Proof.
  unfold index. destruct (row !! i); [apply agree_ret | apply agree_raise].
Qed.

Lemma agree_open_rb path : agree (open_rb path) (open_rb path).
Proof.
  apply agree_bind; [apply agree_log|]. intros _ w1 w2 [Hfs Hcalls].
  rewrite Hfs. by destruct (fs w2 !! path).
Qed.

Lemma agree_now : agree now now.
Proof. intros w1 w2 [Hfs Hcalls]. unfold now. cbn. by rewrite Hcalls. Qed.

Lemma agree_create error path content :
  agree (create error path content) (create error path content).
Proof.
  intros w1 w2 [Hfs Hcalls]. unfold create, write_file. rewrite Hfs.
  destruct (error _ _); repeat split; cbn; congruence.
Qed.

Lemma chatter_print line : chatter (print line).
Proof. intros w. by eexists. Qed.

Lemma chatter_bind (m k : M unit) :
  chatter m -> chatter k -> chatter (bind m (fun _ => k)).
Proof.
  intros Hm Hk w. unfold bind. destruct (Hm w) as [out1 ->].
  destruct (Hk (World (fs w) out1 (calls w))) as [out2 ->]. by eexists.
Qed.

(** Whether a debug message is printed does not matter. *)
Lemma agree_when b1 b2 (m1 m2 : M unit) :
  chatter m1 -> chatter m2 -> agree (when b1 m1) (when b2 m2).
Proof.
  intros Hm1 Hm2 w1 w2 Hw.
  assert (forall b m w, chatter m ->
            (when b m w).1 = Ok tt /\ same_disk (when b m w).2 w) as Hwhen.
  { intros [|] m w Hm; [|by split]. cbn [when]. by destruct (Hm w) as [out ->]. }
  destruct (Hwhen b1 m1 w1 Hm1) as [-> [Hfs1 Hcalls1]].
  destruct (Hwhen b2 m2 w2 Hm2) as [-> [Hfs2 Hcalls2]].
  destruct Hw as [Hfs Hcalls]. repeat split; congruence.
Qed.

End AgreeFacts.

Create HintDb agree.
#[export] Hint Resolve agree_ret agree_raise agree_print agree_log
  agree_write_file agree_index agree_open_rb agree_now agree_create
  chatter_print : agree.

Ltac agree :=
  repeat first
    [ progress auto with agree
    | apply agree_when
    | apply chatter_bind
    | apply agree_bind; [|intros ?]
    | match goal with
      | |- agree (match ?x with _ => _ end) (match ?x with _ => _ end) =>
          destruct x
      | |- agree (if ?x then _ else _) (if ?x then _ else _) => destruct x
      end ].

Section DebugFlag.
Context `{Libraries}.
Variable cfg : config.

Lemma agree_make_id b (row : list str) :
  agree (make_id (set_debug b cfg) row) (make_id cfg row).
Proof.
  unfold make_id, id_barcode, render_pdf, merger_append, open_wb.
  cbn [set_debug images_path output_path debug template_front template_back].
  cbv zeta. agree.
Qed.

Lemma agree_process_rows b (data : list (list str)) :
  agree (process_rows (set_debug b cfg) data) (process_rows cfg data).
Proof.
  induction data as [|row data IH]; [apply agree_ret|].
  cbn [process_rows]. apply agree_bind; [|by intros _].
  unfold process_row. cbn [set_debug debug].
  apply agree_bind; [agree|]. intros _.
  destruct (row_eqb row header); [agree|].
  apply agree_bind; [agree|]. intros row4.
  case_bool_decide; [agree | apply agree_make_id].
Qed.

(** X10. The [--debug] flag changes what is printed and nothing else: with
    the flag set either way a run over the same rows from the same files
    ends in the same way, normally or with the same exception, with the
    same files and after the same calls to the outside. *)
Theorem debug_flag_only_prints b (data : list (list str)) w :
  (main (set_debug b cfg) data w).1 = (main cfg data w).1
  /\ fs (main (set_debug b cfg) data w).2 = fs (main cfg data w).2
  /\ calls (main (set_debug b cfg) data w).2 = calls (main cfg data w).2.
Proof.
  assert (agree (main (set_debug b cfg) data) (main cfg data)) as Hmain.
  { unfold main. apply agree_bind; [apply agree_process_rows|].
    intros _. apply agree_print. }
  destruct (Hmain w w (same_disk_refl w)) as [Hres [Hfs Hcalls]].
  by repeat split.
Qed.

End DebugFlag.

(** ** The further statements on concrete rows *)

Section MoreWitnesses.
Import Stub.

Lemma template_without_tokens_unchanged_witness :
  id_front "<svg>card</svg>" "Ada" "Lovelace" "2099" "S1001" "TWFu"
  = lit "<svg>card</svg>"
  /\ id_back "<svg/>" "UzEwMDE=" = lit "<svg/>".
Proof.
  apply template_without_tokens_unchanged;
    apply occursb_false; (apply token_text_ne || reflexivity).
Defined.

Lemma run_writes_only_record_files_witness :
  (forall p,
     is_Some (fs w0 !! p) ->
     is_Some (fs (main cfg [header; ada; absent] w0).2 !! p))
  /\ (forall p,
        (forall row,
           row ∈ [header; ada; absent] -> ~ record_files cfg row p) ->
        fs (main cfg [header; ada; absent] w0).2 !! p = fs w0 !! p).
Proof.
  apply (run_writes_only_record_files cfg [header; ada; absent] w0
           (main cfg [header; ada; absent] w0).1).
  apply surjective_pairing.
Defined.


Lemma back_failure_leaves_front_witness :
  exists e,
    (@process_row Strict.libraries Strict.cfg ada w0).1 = Raise e
    /\ (e = CairoError
        \/ @svg2pdf_create Strict.libraries
             (<[front_path Strict.cfg "S1001"
                := @pdf_stamp Strict.libraries (length (calls w0) + 4)
                     (x00 :: Py.encode_utf8 "Ada Lovelace")]> (fs w0))
             (back_path Strict.cfg "S1001") = Some e)
    /\ fs (@process_row Strict.libraries Strict.cfg ada w0).2
         !! front_path Strict.cfg "S1001"
       = Some (@pdf_stamp Strict.libraries (length (calls w0) + 4)
                 (x00 :: Py.encode_utf8 "Ada Lovelace"))
    /\ fs (@process_row Strict.libraries Strict.cfg ada w0).2
         !! out_path Strict.cfg "S1001"
       = fs w0 !! out_path Strict.cfg "S1001"
    /\ (forall p,
          p <> front_path Strict.cfg "S1001" ->
          p <> back_path Strict.cfg "S1001" ->
          fs (@process_row Strict.libraries Strict.cfg ada w0).2 !! p
          = fs w0 !! p)
    /\ calls (@process_row Strict.libraries Strict.cfg ada w0).2
       = calls w0
         ++ [OpenRead (photo_path Strict.cfg "2099" "p1"); Code128 "S1001";
             Svg2Png; Svg2Pdf (front_path Strict.cfg "S1001");
             Svg2Pdf (back_path Strict.cfg "S1001")].
Proof.
  apply (@back_failure_leaves_front Strict.libraries Strict.cfg ada
           "Ada" "Lovelace" "2099" "S1001" "p1" photo1
           (Py.encode_utf8 "S1001") (Py.encode_utf8 "S1001"));
    try reflexivity; discriminate.
Defined.


Lemma header_rows_dropped_anywhere_witness :
  main cfg (filter (fun row => row <> header) [absent; header; ada]) w0
  = main cfg [absent; header; ada] w0.
Proof. apply (header_rows_dropped_anywhere cfg eq_refl). Defined.

Lemma trailing_fields_ignored_witness :
  process_row cfg (ada ++ ["homeroom 12" : str]) w0
  = process_row cfg (take 5 (ada ++ ["homeroom 12" : str])) w0.
Proof.
  apply (trailing_fields_ignored cfg eq_refl); discriminate.
Defined.

Lemma processed_record_calls_witness :
  exists row0 row1 row2 row3 row4 photo png,
    ada !! 0 = Some row0 /\ ada !! 1 = Some row1 /\ ada !! 2 = Some row2
    /\ ada !! 3 = Some row3 /\ ada !! 4 = Some row4
    /\ fs w0 !! photo_path cfg row2 row4 = Some photo
    /\ calls (process_row cfg ada w0).2
       = calls w0 ++ record_calls cfg row2 row3 row4
    /\ stdout (process_row cfg ada w0).2
       = stdout (echo cfg ada w0)
         ++ debug_lines cfg row0 row1 row2 row3 photo png
    /\ (debug cfg = false -> stdout (process_row cfg ada w0).2 = stdout w0).
Proof.
  apply (processed_record_calls cfg ada w0).
  - exact has_photo_ada.
  - vm_compute. reflexivity.
Defined.

End MoreWitnesses.
